(** * demeter_io/reader.py: readers and normalizers of the Demeter inputs

    A shallow embedding of [src/demeter/demeter_io/reader.py] and the
    properties its specification states about it.

    Python values are embedded as follows.
    - [int] is [Z]; [str] is [string] (bytes, as in the Python 2 the module
      targets); a list is a [list].
    - A raised exception is the [Raise] outcome of [PyResult]; code that also
      writes to the logger lives in [Py], which threads the list of emitted
      log records.
    - A pandas frame is a list of labelled, typed columns.  What
      [pd.read_csv] and [os.stat] make of a path is a parameter of the
      development: the file system and the pandas parser are not part of
      the module.
    - Floating-point cells are an abstract type [num] with abstract
      arithmetic; nothing is assumed about it.  The samples instantiate it
      with integers and, where rounding matters, with binary64. *)

From Stdlib Require Import ZArith Ascii Lia QArith Floats.
From stdpp Require Import base list gmap strings sorting pretty.

Local Open Scope Z_scope.

(** ** Python values, exceptions and outcomes *)

(** A scalar as found in a label column of a frame or as a dictionary key. *)
Inductive PyVal :=
| PInt (z : Z)
| PStr (s : string).

Global Instance PyVal_eq_dec : EqDecision PyVal.
Proof. solve_decision. Defined.

Definition PyVal_to_sum (v : PyVal) : Z + string :=
  match v with PInt z => inl z | PStr s => inr s end.

Definition PyVal_of_sum (v : Z + string) : PyVal :=
  match v with inl z => PInt z | inr s => PStr s end.

Global Instance PyVal_countable : Countable PyVal.
Proof.
  apply (inj_countable' PyVal_to_sum PyVal_of_sum).
  by intros [].
Defined.

Inductive PyExn :=
| KeyError (missing : list PyVal)
| ValueError (literal : string)
| AttributeError (attribute : string)
| UnboundLocalError (variable : string)
| IndexError
| TypeError (detail : string)
| ReaderError (detail : string)
(* a dtype the embedding does not cover; not a Python exception *)
| Unmodelled (what : string).

Inductive PyResult (A : Type) :=
| Return (a : A)
| Raise (e : PyExn).
Arguments Return {A} & a.
Arguments Raise {A} e.

Definition res_bind {A B} (r : PyResult A) (k : A → PyResult B) : PyResult B :=
  match r with
  | Return a => k a
  | Raise e => Raise e
  end.

(** [for x in l: f(x)] collecting the results, stopping at the first raise. *)
Fixpoint res_map {A B} (f : A → PyResult B) (l : list A) : PyResult (list B) :=
  match l with
  | [] => Return []
  | x :: l' =>
      res_bind (f x) (λ y, res_bind (res_map f l') (λ ys, Return (y :: ys)))
  end.

(** ** The logger *)

Inductive Level := INFO | WARNING | ERROR.

Global Instance Level_eq_dec : EqDecision Level.
Proof. solve_decision. Defined.

(** The argument substituted for [{0}] in a message, or the object logged. *)
Inductive LogArg :=
| ANone
| AStrings (l : list string)
| ACount (n : nat)
| AExn (e : PyExn).

Record LogRecord := mkLog { level : Level; message : string; argument : LogArg }.

(** A computation that may log and may raise. *)
Definition Py (A : Type) : Type := list LogRecord → PyResult A * list LogRecord.

Definition ret {A} (a : A) : Py A := λ log, (Return a, log).
Definition raise {A} (e : PyExn) : Py A := λ log, (Raise e, log).
Definition bind {A B} (m : Py A) (k : A → Py B) : Py B :=
  λ log, match m log with
         | (Return a, log') => k a log'
         | (Raise e, log') => (Raise e, log')
         end.
Definition lift {A} (r : PyResult A) : Py A := λ log, (r, log).

(** [try: body / except <handled>: handler]; [handles e] tells whether the
    except clause matches the exception. *)
Definition try_except {A} (body : Py A) (handles : PyExn → bool)
    (handler : PyExn → Py A) : Py A :=
  λ log, match body log with
         | (Return a, log') => (Return a, log')
         | (Raise e, log') => if handles e then handler e log' else (Raise e, log')
         end.

Definition emit (lv : Level) (msg : string) (arg : LogArg) : Py unit :=
  λ log, (Return tt, log ++ [mkLog lv msg arg]).

Definition log_warning := emit WARNING.
Definition log_info := emit INFO.
Definition log_error := emit ERROR.

Declare Scope py_scope.
Delimit Scope py_scope with py.
Notation "x <~ m ;; k" := (bind m (λ x, k))
  (at level 100, m at next level, right associativity) : py_scope.
Notation "m ;;; k" := (bind m (λ _, k))
  (at level 100, right associativity) : py_scope.

Definition is_KeyError (e : PyExn) : bool :=
  match e with KeyError _ => true | _ => false end.
Definition is_ValueError (e : PyExn) : bool :=
  match e with ValueError _ => true | _ => false end.

Definition warnings (log : list LogRecord) : list LogRecord :=
  filter (λ r, level r = WARNING) log.

(** ** Strings *)

(** [str.lower] on a byte string: the ASCII capitals are mapped. *)
Definition lower_char (c : ascii) : ascii :=
  let n := nat_of_ascii c in
  if ((65 <=? n) && (n <=? 90))%nat then ascii_of_nat (n + 32) else c.

Fixpoint lower (s : string) : string :=
  match s with
  | EmptyString => EmptyString
  | String c s' => String (lower_char c) (lower s')
  end.

Definition is_space (c : ascii) : bool :=
  let n := nat_of_ascii c in
  ((9 <=? n) && (n <=? 13) || (n =? 32))%nat.

Definition digit_of (c : ascii) : option Z :=
  let n := nat_of_ascii c in
  if ((48 <=? n) && (n <=? 57))%nat then Some (Z.of_nat n - 48) else None.

Fixpoint lstrip (s : string) : string :=
  match s with
  | String c s' => if is_space c then lstrip s' else s
  | EmptyString => EmptyString
  end.

Definition strip (s : string) : string :=
  String.rev (lstrip (String.rev (lstrip s))).

Fixpoint digits_value (s : string) (acc : Z) : option Z :=
  match s with
  | EmptyString => Some acc
  | String c s' =>
      match digit_of c with
      | Some d => digits_value s' (10 * acc + d)
      | None => None
      end
  end.

Definition unsigned_value (s : string) : option Z :=
  match s with
  | EmptyString => None
  | _ => digits_value s 0
  end.

(** [int(s)] for a string: surrounding white space is dropped, one sign is
    allowed, the rest must be one or more decimal digits; anything else is a
    [ValueError]. *)
Definition py_int (s : string) : PyResult Z :=
  let parsed :=
    match strip s with
    | String "+" d => unsigned_value d
    | String "-" d => Z.opp <$> unsigned_value d
    | d => unsigned_value d
    end in
  match parsed with
  | Some z => Return z
  | None => Raise (ValueError s)
  end.

(** [str(n)] for an integer. *)
Definition py_str (z : Z) : string := pretty z.


(** ** numpy and pandas helpers on plain lists *)

(** The order of [str] values: lexicographic on the bytes. *)
Definition str_le (a b : string) : Prop := Is_true (String.leb a b).

Global Instance str_le_dec a b : Decision (str_le a b).
Proof. unfold str_le. apply _. Defined.

(** [Series.unique()]: the distinct values in order of first appearance. *)
Fixpoint pd_unique `{EqDecision A} (l : list A) : list A :=
  match l with
  | [] => []
  | x :: l' => x :: filter (λ y, y ≠ x) (pd_unique l')
  end.

(** [arr.sort()] / [Series.sort_values()] on integers and on strings. *)
Definition sort_ints (l : list Z) : list Z := merge_sort Z.le l.
Definition sort_strs (l : list string) : list string := merge_sort str_le l.

(** [np.unique]: the sorted distinct values. *)
Definition np_unique_ints (l : list Z) : list Z := pd_unique (sort_ints l).
Definition np_unique_strs (l : list string) : list string := pd_unique (sort_strs l).

(** [np.setdiff1d(ar1, ar2)]: the sorted distinct values of [ar1] that are
    not in [ar2]. *)
Definition np_setdiff1d (ar1 ar2 : list string) : list string :=
  filter (λ x, x ∉ np_unique_strs ar2) (np_unique_strs ar1).

(** [l.insert(i, x)]: a negative index counts from the end, and an index
    beyond either end is clipped to it. *)
Definition py_insert {A} (i : Z) (x : A) (l : list A) : list A :=
  let n := Z.of_nat (length l) in
  let j := if i <? 0 then Z.max 0 (i + n) else Z.min i n in
  take (Z.to_nat j) l ++ x :: drop (Z.to_nat j) l.

(** [np.where(arr == x)[0][0]]: the first index holding [x]. *)
Definition np_where_first `{EqDecision A} (arr : list A) (x : A) : PyResult Z :=
  match list_find (λ y, y = x) arr with
  | Some (i, _) => Return (Z.of_nat i)
  | None => Raise IndexError
  end.

(** [{k: v for k, v in pairs}]: a later pair overwrites an earlier one. *)
Definition dict_of_pairs `{Countable K} {V} (pairs : list (K * V)) : gmap K V :=
  fold_left (λ d kv, <[kv.1 := kv.2]> d) pairs ∅.

(** [enumerate(l)], already shifted: the pairs [(x, ix + 1)]. *)
Definition enumerate_from_1 {A} (l : list A) : list (A * Z) :=
  imap (λ ix x, (x, Z.of_nat ix + 1)) l.

(** [d[k]] on a dictionary; [repr] shows the key in the [KeyError]. *)
Definition dict_getitem `{Countable K} {V} (repr : K → PyVal)
    (d : gmap K V) (k : K) : PyResult V :=
  match d !! k with
  | Some v => Return v
  | None => Raise (KeyError [repr k])
  end.

(** [int(v)] on a dictionary value. *)
Definition py_int_val (v : PyVal) : PyResult Z :=
  match v with
  | PInt z => Return z
  | PStr s => py_int s
  end.

(** [df.groupby(key)[val].apply(list)]: one entry per distinct key, keys
    ascending, the values of the key's rows in row order. *)
Definition groupby_lists (keys vals : list Z) : list (Z * list Z) :=
  map (λ k, (k, (filter (λ kv, kv.1 = k) (zip keys vals)).*2))
      (np_unique_ints keys).

Global Instance PyResult_ret : MRet PyResult := @Return.
Global Instance PyResult_bind : MBind PyResult := λ A B k r, res_bind r k.
Global Instance PyResult_fmap : FMap PyResult :=
  λ A B g r, res_bind r (λ a, Return (g a)).

(** ** [to_dict] and [to_list] (lines 15-70) *)

(** [for x in l: acc = body(acc, x)], stopping at the first raise. *)
Fixpoint res_foldl {A B} (body : B → A → PyResult B) (l : list A) (acc : B)
    : PyResult B :=
  match l with
  | [] => Return acc
  | x :: l' => res_bind (body acc x) (res_foldl body l')
  end.

(** The scan of [str.split(sep)] for a non-empty [sep]: [cur] is the field
    read so far, [skip] the characters of a separator still to pass. *)
Fixpoint split_go (sep : string) (skip : nat) (cur : string) (s : string)
    : list string :=
  match s with
  | EmptyString => [cur]
  | String c s' =>
      match skip with
      | S k => split_go sep k cur s'
      | O =>
          if String.prefix sep s
          then cur :: split_go sep (String.length sep - 1) "" s'
          else split_go sep 0 (cur +:+ String c "") s'
      end
  end.

(** [s.split(sep)]: an empty separator is a [ValueError]. *)
Definition py_split (sep s : string) : PyResult (list string) :=
  if decide (sep = "") then Raise (ValueError "empty separator")
  else Return (split_go sep 0 "" s).

(** [item[i]] on a list. *)
Definition py_index {A} (item : list A) (i : nat) : PyResult A :=
  match item !! i with
  | Some x => Return x
  | None => Raise IndexError
  end.

(** [enumerate(get)] over the lines of the open file. *)
Definition enumerate {A} (l : list A) : list (nat * A) :=
  imap (λ idx line, (idx, line)) l.

(** The body of the loop of [to_dict]: the line is split before the header
    test. *)
Definition to_dict_body (header : bool) (delim : string) (swap : bool)
    (d : gmap string string) (entry : nat * string)
    : PyResult (gmap string string) :=
  (* strip returns and split line by delimiter *)
  item ← py_split delim (strip entry.2);
  (* skip header if exists *)
  if header && (entry.1 =? 0)%nat then Return d
  (* add key: value pair to dict *)
  else if swap then
    v ← py_index item 0; k ← py_index item 1; Return (<[k := v]> d)
  else
    k ← py_index item 0; v ← py_index item 1; Return (<[k := v]> d).

(** [f] stands for the lines that iterating over the open file yields, line
    terminators included. *)
Definition to_dict (f : list string) (header : bool) (delim : string)
    (swap : bool) : PyResult (gmap string string) :=
  res_foldl (to_dict_body header delim swap) (enumerate f) ∅.

(** The body of the loop of [to_list]: the header test comes first. *)
Definition to_list_body (header : bool) (delim : string)
    (l : list Z) (entry : nat * string) : PyResult (list Z) :=
  (* skip header if exists *)
  if header && (entry.1 =? 0)%nat then Return l
  else
    (* strip returns and split line by delimiter *)
    item ← py_split delim (strip entry.2);
    (* append index 1 items *)
    x ← py_index item 1; n ← py_int x; Return (l ++ [n]).

Definition to_list (f : list string) (header : bool) (delim : string)
    : PyResult (list Z) :=
  res_foldl (to_list_body header delim) (enumerate f) [].

(** One data line of [to_dict]. *)
Definition dict_step (delim : string) (swap : bool) (d : gmap string string)
    (line : string) : PyResult (gmap string string) :=
  to_dict_body false delim swap d (0%nat, line).

(** One data line of [to_list]. *)
Definition list_step (delim : string) (l : list Z) (line : string)
    : PyResult (list Z) :=
  to_list_body false delim l (0%nat, line).

(** The key and the value a split line gives. *)
Definition key_of (swap : bool) (item : list string) : option string :=
  item !! (if swap then 1 else 0)%nat.
Definition value_of (swap : bool) (item : list string) : option string :=
  item !! (if swap then 0 else 1)%nat.

(** What a data line adds to the dictionary. *)
Definition line_entry (delim : string) (swap : bool) (line : string)
    (entry : string * string) : Prop :=
  ∃ item, py_split delim (strip line) = Return item ∧
          key_of swap item = Some entry.1 ∧ value_of swap item = Some entry.2.

(** What a data line adds to the list. *)
Definition line_number (delim : string) (line : string) (n : Z) : Prop :=
  ∃ item x, py_split delim (strip line) = Return item ∧
            item !! 1%nat = Some x ∧ py_int x = Return n.

(** The lines of a file that carry data: all of them, or all but the
    first. *)
Definition data_lines (f : list string) (header : bool) : list string :=
  if header then drop 1 f else f.

(** *** The lines of a file

    A file is its bytes.  Iterating over the file object yields the lines,
    each with the line feed that ends it; the last line may have none.
    [open(f)], which [to_dict] uses, reads the bytes as they are (text mode
    of Python 2 on POSIX); [open(f, 'rU')], which [to_list] uses, reads
    them with universal newlines: a carriage return, with the line feed
    that follows it if one does, is read as a line feed. *)
Definition LF : ascii := ascii_of_nat 10.
Definition CR : ascii := ascii_of_nat 13.

Fixpoint lines_from (cur : string) (s : string) : list string :=
  match s with
  | EmptyString => if decide (cur = "") then [] else [cur]
  | String c s' =>
      if decide (c = LF) then (cur +:+ String c "") :: lines_from "" s'
      else lines_from (cur +:+ String c "") s'
  end.

Fixpoint universal_newlines (s : string) : string :=
  match s with
  | EmptyString => EmptyString
  | String c s' =>
      if decide (c = CR) then
        String LF match s' with
                  | String c' s'' =>
                      if decide (c' = LF) then universal_newlines s''
                      else universal_newlines s'
                  | EmptyString => EmptyString
                  end
      else String c (universal_newlines s')
  end.

Definition open_r (bytes : string) : list string := lines_from "" bytes.
Definition open_rU (bytes : string) : list string :=
  lines_from "" (universal_newlines bytes).

(** A file in which a line feed follows every carriage return: lines end in
    a line feed or in a carriage return and a line feed. *)
Fixpoint crlf_only (s : string) : Prop :=
  match s with
  | EmptyString => True
  | String c s' => (c = CR → ∃ s'', s' = String LF s'') ∧ crlf_only s'
  end.

(** ** [_check_constraints] (lines 120-154) *)

Definition m_alloc_extra : string :=
  "Land classes in allocation file but not in projected model data:  {0}".
Definition m_act_extra : string :=
  "Land classes in projected model but not in allocation file:  {0}".

Definition _check_constraints (allocate actual : list string) : Py unit :=
  (* make lower case *)
  let act := lower <$> actual in
  let alloc := lower <$> allocate in
  (* create a list of elements not accounted for *)
  let act_extra := np_setdiff1d alloc act in
  let alloc_extra := np_setdiff1d act alloc in
  (* get lengths *)
  let l_act := length act_extra in
  let l_alloc := length alloc_extra in
  if ((0 <? l_alloc) && (0 <? l_act))%nat then
    (log_warning m_alloc_extra (AStrings alloc_extra) ;;;
     log_warning m_act_extra (AStrings act_extra))%py
  else if ((0 <? l_alloc) && (l_act =? 0))%nat then
    log_warning m_alloc_extra (AStrings alloc_extra)
  else if ((l_alloc =? 0) && (0 <? l_act))%nat then
    log_warning m_act_extra (AStrings act_extra)
  else ret tt.

(** How many of the two one-sided differences of the land-class sets are
    non-empty. *)
Definition sides_differing (alloc act : list string) : nat :=
  (Nat.b2n (negb (bool_decide (act ⊆ alloc)))
   + Nat.b2n (negb (bool_decide (alloc ⊆ act))))%nat.

Section Reader.

(** The floating-point numbers of numpy and the operations the module uses
    on them. *)
Context {num : Type}.
Variable num_of_Z : Z → num.
Variable num_of_Q : Q → num.
Variables nadd nmul ndiv : num → num → num.
Variables ncos nradians : num → num.
Variable npow : num → Z → num.
Variable nsum : list num → num.
Variable num_eqb_Z : num → Z → bool.

(** ** Frames *)

Inductive Series :=
| IntS (l : list Z)
| StrS (l : list string)
| NumS (l : list num).

Inductive Cell :=
| CInt (z : Z)
| CStr (s : string)
| CNum (x : num).

Inductive NdArray :=
| Array1 (l : list Cell)
| Array2 (rows : list (list Cell)).

Definition DataFrame : Type := list (string * Series).

(** What the file system and pandas make of a path: [os.stat(f).st_size]
    and [pd.read_csv(f, delimiter=delim)]. *)
Variable os_stat_st_size : string → Z.
Variable pd_read_csv : string → string → PyResult DataFrame.

Definition series_len (s : Series) : nat :=
  match s with
  | IntS l => length l
  | StrS l => length l
  | NumS l => length l
  end.

(** [df.columns] and [len(df)]. *)
Definition columns (df : DataFrame) : list string := df.*1.

Definition nrows (df : DataFrame) : nat :=
  match df with
  | [] => 0%nat
  | (_, s) :: _ => series_len s
  end.

(** Every column of a frame has the frame's number of rows, as pandas
    keeps it. *)
Definition aligned (df : DataFrame) : Prop :=
  Forall (λ c, series_len c.2 = nrows df) df.

(** [df.columns = [c.lower() for c in df.columns]]. *)
Definition rename_lower (df : DataFrame) : DataFrame :=
  (λ c, (lower c.1, c.2)) <$> df.

(** The columns of a frame that carry a label, in frame order. *)
Definition labelled (df : DataFrame) (name : string) : list Series :=
  (filter (λ c, c.1 = name) df).*2.

(** What [df[name]] selects: the column under a label that occurs once, and
    the frame of all the columns under a label that occurs several times.
    The parser keeps the headers of a file apart; lower-casing them can make
    two of them one label. *)
Inductive Selection :=
| Column (s : Series)
| Frame (cols : list Series).

Coercion Column : Series >-> Selection.

(** [df[name]]. *)
Definition getitem (df : DataFrame) (name : string) : PyResult Selection :=
  match labelled df name with
  | [] => Raise (KeyError [PStr name])
  | [s] => Return (Column s)
  | cols => Return (Frame cols)
  end.

(** [df[names]] for a list of labels: label by label, every column that
    carries the label; the [KeyError] names the labels that are not in the
    index. *)
Definition getitems (df : DataFrame) (names : list string)
    : PyResult (list Series) :=
  match filter (λ n, n ∉ columns df) names with
  | [] => Return (names ≫= labelled df)
  | missing => Raise (KeyError (PStr <$> missing))
  end.

(** [df[name] = s]: an existing column is replaced in place, a new one is
    appended. *)
Definition setitem (df : DataFrame) (name : string) (s : Series) : DataFrame :=
  if decide (name ∈ columns df)
  then (λ c, if decide (c.1 = name) then (name, s) else c) <$> df
  else df ++ [(name, s)].

Definition cells_of (s : Series) : list Cell :=
  match s with
  | IntS l => CInt <$> l
  | StrS l => CStr <$> l
  | NumS l => CNum <$> l
  end.

Definition is_NumS (s : Series) : bool :=
  match s with NumS _ => true | _ => false end.
Definition is_StrS (s : Series) : bool :=
  match s with StrS _ => true | _ => false end.

Definition upcast (c : Cell) : Cell :=
  match c with
  | CInt z => CNum (num_of_Z z)
  | _ => c
  end.

(** The [n] rows of a table given by its columns. *)
Definition rows_of {A} (n : nat) (cols : list (list A)) : list (list A) :=
  (λ i, omap (λ c : list A, c !! i) cols) <$> seq 0 n.

(** [df[names].as_matrix()] for a frame of [n] rows: row-major; integer
    columns are promoted when they meet float columns, and a text column
    makes the array one of objects. *)
Definition as_matrix (n : nat) (cols : list Series) : NdArray :=
  let cs := cells_of <$> cols in
  let cs := if existsb is_NumS cols && negb (existsb is_StrS cols)
            then fmap upcast <$> cs else cs in
  Array2 (rows_of n cs).

(** [x.as_matrix()] on a selection: a column gives a one-dimensional array;
    a frame gives a two-dimensional one, kept here by its columns, the cells
    of one dtype as in [as_matrix]. *)
Inductive Values :=
| Vector (s : Series)
| Table (cols : list (list Cell)).

Coercion Vector : Series >-> Values.

Definition values (x : Selection) : Values :=
  match x with
  | Column s => Vector s
  | Frame cols =>
      let cs := cells_of <$> cols in
      Table (if existsb is_NumS cols && negb (existsb is_StrS cols)
             then fmap upcast <$> cs else cs)
  end.

(** [x.str.lower().tolist()]: the [.str] accessor exists on text columns
    only, and a frame has no such attribute. *)
Definition str_lower_tolist (x : Selection) : PyResult (list string) :=
  match x with
  | Column (StrS l) => Return (lower <$> l)
  | _ => Raise (AttributeError "str")
  end.

(** ** [read_alloc] (lines 73-117) *)

Inductive AllocResult :=
| Tuple3 (fcs tcs : list string) (arr : NdArray)
| Tuple2 (tcs : list string) (arr : NdArray)
| Single (arr : NdArray)
| PyNone.

Definition read_alloc (f lc_col : string) (output_level : Z) (delim : string)
    : PyResult AllocResult :=
  (* make target land cover field name lower case *)
  let col := lower lc_col in
  (* check for empty file; if blank return empty array *)
  if negb (os_stat_st_size f =? 0) then
    df ← pd_read_csv f delim;
    let df := rename_lower df in
    tcs ← getitem df col ≫= str_lower_tolist;
    let fcs := filter (λ i, i ≠ col) (columns df) in
    arr ← as_matrix (nrows df) <$> getitems df fcs;
    if output_level =? 3 then Return (Tuple3 fcs tcs arr)
    else if output_level =? 2 then Return (Tuple2 tcs arr)
    else if output_level =? 1 then Return (Single arr)
    (* no branch is taken: the function ends, which returns None *)
    else Return PyNone
  else Return (Tuple2 [] (Array1 [])).

(** An allocation table: the frame of an allocation file, whose target
    land-cover column (named case-insensitively) is a text column, the only
    one under its lower-cased label. *)
Definition allocation_table (df : DataFrame) (lc_col : string) : Prop :=
  ∃ tcs, getitem (rename_lower df) (lower lc_col) = Return (StrS tcs).

(** ** [_get_steps] (lines 157-176) *)

(** The selector as the specification words it: the integer parses of the
    labels that parse and lie in [[start, end]], in the labels' order. *)
Definition parses_as (label : string) : option Z :=
  match py_int label with
  | Return y => Some y
  | Raise _ => None
  end.

Definition select_time_steps (labels : list string) (start_step end_step : Z)
    : list Z :=
  filter (λ y, start_step ≤ y ≤ end_step) (omap parses_as labels).


(** The body of the loop: [l] after the label [i]. *)
Definition get_steps_body (start_step end_step : Z)
    (acc : PyResult (list Z)) (i : string) : PyResult (list Z) :=
  l ← acc;
  match py_int i with
  | Return y =>
      if (start_step <=? y) && (y <=? end_step)
      then Return (l ++ [y]) else Return l
  | Raise e => if is_ValueError e then Return l else Raise e
  end.

Definition _get_steps (df : DataFrame) (start_step end_step : Z)
    : PyResult (list Z) :=
  fold_left (get_steps_body start_step end_step) (columns df) (Return []).

(** ** [read_gcam_file] (lines 179-280) *)

(** The columns as the function uses them.  The embedding covers text land
    classes, integer metric identifiers, integer or text regions and
    numeric areas; any other dtype ends in [Unmodelled].  Where a label is
    repeated the selection is a frame, which has none of the methods the
    function calls on a column: [tolist] and [unique] are no attributes of
    it, and its [sort_values] wants an argument. *)
Definition tolist_strs (x : Selection) : PyResult (list string) :=
  match x with
  | Column (StrS l) => Return l
  | Column (IntS []) | Column (NumS []) => Return []
  | Column _ => Raise (AttributeError "lower")
  | Frame _ => Raise (AttributeError "tolist")
  end.

Definition int_codes (x : Selection) : PyResult (list Z) :=
  match x with
  | Column (IntS l) => Return l
  | Column _ => Raise (Unmodelled "metric_id dtype")
  | Frame _ => Raise (TypeError "sort_values")
  end.

Definition labels_of (x : Selection) : PyResult (list PyVal) :=
  match x with
  | Column (IntS l) => Return (PInt <$> l)
  | Column (StrS l) => Return (PStr <$> l)
  | Column (NumS _) => Raise (Unmodelled "region dtype")
  | Frame _ => Raise (AttributeError "unique")
  end.

(** The cells of a numeric column as the float arithmetic of the module
    takes them: an integer enters as the float of its value.  ([np.sum] adds
    an array of integers before it is converted; the floats of the integers
    add up to the same number as long as the sums are exact floats, that is
    below 2 ** 53.) *)
Definition nums_of (s : Series) : PyResult (list num) :=
  match s with
  | IntS l => Return (num_of_Z <$> l)
  | NumS l => Return l
  | StrS _ => Raise (Unmodelled "text in a numeric column")
  end.

(** [df[names].as_matrix()] as rows of numbers. *)
Definition num_matrix (n : nat) (cols : list Series)
    : PyResult (list (list num)) :=
  rows_of n <$> res_map nums_of cols.

(** [m * area_factor] on a matrix. *)
Definition scale_matrix (area_factor : num) (m : list (list num))
    : list (list num) :=
  map (map (λ x, nmul x area_factor)) m.

(** [s.apply(lambda x: x.lower())]. *)
Definition apply_lower (l : list string) : list string := map lower l.

(** Lines 212-216, before the multiplication: the selected years and the
    matrix [gdf[target_years].as_matrix()]. *)
Definition year_data (gdf : DataFrame) (start_yr end_yr : Z)
    : PyResult (list Z * list (list num)) :=
  user_years ← _get_steps gdf start_yr end_yr;
  let target_years := py_str <$> user_years in
  m ← getitems gdf target_years ≫= num_matrix (nrows gdf);
  Return (user_years, m).

(** A series with its text blanked: what is left of a column for code that
    reads numbers only. *)
Definition blank_text (s : Series) : Series :=
  match s with
  | StrS l => StrS (replicate (length l) "")
  | _ => s
  end.

Definition blank_frame (df : DataFrame) : DataFrame :=
  map (λ c, (c.1, blank_text c.2)) df.

(** [gdf['scenario'] = scenario]. *)
Definition with_scenario (gdf : DataFrame) (scenario : string) : DataFrame :=
  setitem gdf "scenario" (StrS (replicate (nrows gdf) scenario)).

(** Line 222: [lu = {i: ix+1 for ix, i in
    enumerate(gdf['metric_id'].sort_values().unique())}]. *)
Definition sorted_ids (metric_id : list Z) : list Z :=
  pd_unique (sort_ints metric_id).

Definition metric_lookup (metric_id : list Z) : gmap Z Z :=
  dict_of_pairs (enumerate_from_1 (sorted_ids metric_id)).

(** Line 225: [gdf['metric_id'].map(lambda x: lu[x])]. *)
Definition sequential_metric (metric_id : list Z) : PyResult (list Z) :=
  let lu := metric_lookup metric_id in
  res_map (dict_getitem PInt lu) metric_id.

(** Lines 228-232, for a frame of [n] rows. *)
Definition region_numbers (n : nat) (region : list PyVal)
    (region_dict : gmap PyVal PyVal) : PyResult (list Z) :=
  let ck_reg := pd_unique region in
  if (length ck_reg =? 1)%nat && bool_decide (ck_reg !! 0%nat = Some (PInt 1))
  then Return (replicate n 1)
  else res_map (λ x, dict_getitem id region_dict x ≫= py_int_val) region.

(** A region reference that holds numbers, or decimal literals as the
    key/value reader delivers them, under the regions of the table. *)
Definition numeric_reference (region : list PyVal)
    (region_dict : gmap PyVal PyVal) : Prop :=
  ∀ k v, k ∈ region → region_dict !! k = Some v →
         ∃ z, py_int_val v = Return z.

Definition str_of_val (v : PyVal) : string :=
  match v with
  | PInt z => py_str z
  | PStr s => s
  end.

Definition int_of_val (v : PyVal) : option Z :=
  match v with
  | PInt z => Some z
  | PStr _ => None
  end.

(** [a = np.array(l); a.sort()] on labels: integers stay integers, and one
    text label turns every label into text. *)
Definition np_array_sorted (l : list PyVal) : list PyVal :=
  match mapM int_of_val l with
  | Some zs => PInt <$> sort_ints zs
  | None => PStr <$> sort_strs (str_of_val <$> l)
  end.

(** Lines 267-268: the sorted distinct metric indices of every region
    number, region numbers ascending. *)
Definition region_metric_lists (gcam_regionnumber gcam_metric : list Z)
    : list (list Z) :=
  (λ g, np_unique_ints g.2) <$> groupby_lists gcam_regionnumber gcam_metric.

Record GcamOutput := mkGcamOutput {
  user_years : list Z;
  gcam_ludata : list (list num);
  gcam_metric : list Z;
  gcam_landname : list string;
  gcam_regionnumber : list Z;
  allreg : list PyVal;
  allregnumber : list Z;
  allregaez : list (list Z);
  allmetric : list Z;
  metric_id_array : list Z }.

Definition m_regions : string := "Number of regions from projected file:  {0}".
Definition m_metrics : string :=
  "Number of basins or AEZs from projected file:  {0}".

(** The columns the function adds to [gdf] after line 212 ([gcam_landname],
    [gcam_metric], [gcam_regionnumber]) are only read back under their own
    names, so they are kept as local values. *)
Definition read_gcam_file (f : string) (gcam_landclasses : list string)
    (start_yr end_yr : Z) (scenario : string)
    (region_dict : gmap PyVal PyVal) (agg_level : Z) (area_factor : num)
    : Py GcamOutput :=
  (* read GCAM output file as a dataframe *)
  (gdf <~ lift (pd_read_csv f ",") ;;
   (* make sure all land classes in the projected file are in the
      allocation file and vice versa *)
   landclass <~ lift (getitem gdf "landclass" ≫= tolist_strs) ;;
   _check_constraints gcam_landclasses landclass ;;;
   (* assign user-defined scenario to data frame *)
   let gdf := with_scenario gdf scenario in
   (* years from the header that are within the user specified range, and
      land use area per year, converted using area_factor *)
   years <~ lift (year_data gdf start_yr end_yr) ;;
   let user_years := years.1 in
   let gcam_ludata := scale_matrix area_factor years.2 in
   (* field for land class *)
   gcam_landname <~ lift (apply_lower <$>
                            (getitem gdf "landclass" ≫= tolist_strs)) ;;
   (* metric id to its index *)
   metric_id <~ lift (getitem gdf "metric_id" ≫= int_codes) ;;
   gcam_metric <~ lift (sequential_metric metric_id) ;;
   (* GCAM region number based off of region name *)
   region <~ lift (getitem gdf "region" ≫= labels_of) ;;
   gcam_regionnumber <~ lift (region_numbers (nrows gdf) region region_dict) ;;
   let metric_id_array := metric_id in
   (* regions and region numbers represented *)
   let l_allreg := pd_unique region in
   let l_allregnumber := pd_unique gcam_regionnumber in
   (* add Taiwan region id (30) and region name 'Taiwan' *)
   let l_allreg :=
     if agg_level =? 2 then l_allreg ++ [PStr "Taiwan"] else l_allreg in
   let l_allregnumber :=
     if agg_level =? 2 then l_allregnumber ++ [30] else l_allregnumber in
   (* convert lists to array and sort *)
   let allreg := np_array_sorted l_allreg in
   let allregnumber := sort_ints l_allregnumber in
   let allmetric := np_unique_ints gcam_metric in
   (* list of lists of AEZ or Basin ids per region *)
   let allregaez := region_metric_lists gcam_regionnumber gcam_metric in
   log_info m_regions (ACount (length allregnumber)) ;;;
   log_info m_metrics (ACount (length allmetric)) ;;;
   (* add Taiwan region space holder if aggregated by GCAM region *)
   allregaez <~
     (if agg_level =? 2 then
        taiwan_idx <~ lift ((λ i, i - 1) <$>
                              np_where_first allreg (PStr "Taiwan")) ;;
        ret (py_insert taiwan_idx [] allregaez)
      else ret allregaez) ;;
   ret (mkGcamOutput user_years gcam_ludata gcam_metric gcam_landname
          gcam_regionnumber allreg allregnumber allregaez allmetric
          metric_id_array))%py.

(** A projection table: a frame with a text [landclass] column, an integer
    [metric_id] column, a [region] column of labels, and numeric columns
    under the labels of the selected years. *)
Definition projection_table (gdf : DataFrame) (start_yr end_yr : Z)
    (landclass : list string) (metric_id : list Z) (region : list PyVal)
    : Prop :=
  getitem gdf "landclass" = Return (StrS landclass) ∧
  getitem gdf "metric_id" = Return (IntS metric_id) ∧
  getitem gdf "region" ≫= labels_of = Return region ∧
  ∀ scenario, ∃ years,
    year_data (with_scenario gdf scenario) start_yr end_yr = Return years.

(** ** [read_base] (lines 283-363) *)

(** The configuration object [c], with the attributes the function reads. *)
Record Config := mkConfig {
  first_mod_file : string;
  pkey : string;
  agg_level : Z;
  metric : string;
  model : string;
  resin : num }.

Record BaseOutput := mkBaseOutput {
  spat_ludata : list (list num);
  spat_water : Values;
  spat_coords : list (list num);
  spat_metric_region : option Values;
  spat_grid_id : Values;
  spat_metric : Values;
  spat_region : Values;
  ngrids : nat;
  cellarea : list num;
  celltrunk : Values }.

Definition m_missing_fields : string :=
  "Fields are listed in the spatial allocation file that do not exist in the base layer.".
Definition m_no_water : string :=
  "Water not represented in base layer.  Representing water as 0 percent of grid.".
Definition m_broadcast : string :=
  "operands could not be broadcast together".

Definition is_CNum (c : Cell) : bool :=
  match c with CNum _ => true | _ => false end.
Definition is_CStr (c : Cell) : bool :=
  match c with CStr _ => true | _ => false end.

(** A table of floats has a float cell and no text cell; a table with a
    text cell is one of objects, and any other one of integers. *)
Definition float_table (cols : list (list Cell)) : bool :=
  existsb is_CNum (concat cols) && negb (existsb is_CStr (concat cols)).

(** [np.zeros_like(a)] and [np.ones_like(a)]: the shape of [a] filled with
    the zero, or the one, of its dtype.  In an array of objects, which is
    what a text column gives, that is the integer. *)
Definition full_like (z : Z) (a : Values) : Values :=
  match a with
  | Vector (IntS l) => IntS (replicate (length l) z)
  | Vector (NumS l) => NumS (replicate (length l) (num_of_Z z))
  | Vector (StrS l) => IntS (replicate (length l) z)
  | Table cols =>
      let fill := if float_table cols then CNum (num_of_Z z) else CInt z in
      Table ((λ col, replicate (length col) fill) <$> cols)
  end.

Definition zeros_like (a : Values) : Values := full_like 0 a.
Definition ones_like (a : Values) : Values := full_like 1 a.

(** [a[a == 30] = 11]: a cell equal to 30 becomes 11.0 in an array of
    floats and the integer 11 in an array of integers or of objects. *)
Definition remap_cell (floats : bool) (c : Cell) : Cell :=
  match c with
  | CInt r => if r =? 30 then CInt 11 else c
  | CNum x =>
      if num_eqb_Z x 30
      then (if floats then CNum (num_of_Z 11) else CInt 11) else c
  | CStr _ => c
  end.

Definition remap_30_to_11 (a : Values) : Values :=
  match a with
  | Vector (IntS l) => IntS ((λ r, if r =? 30 then 11 else r) <$> l)
  | Vector (NumS l) =>
      NumS ((λ r, if num_eqb_Z r 30 then num_of_Z 11 else r) <$> l)
  | Vector (StrS l) => StrS l
  | Table cols => Table (map (map (remap_cell (float_table cols))) cols)
  end.

(** A local variable that an earlier branch may have left unbound. *)
Definition local {A} (name : string) (v : option A) : Py A :=
  match v with
  | Some a => ret a
  | None => raise (UnboundLocalError name)
  end.

(** [m[:, 0]]. *)
Definition first_column (m : list (list num)) : list num :=
  omap (λ row : list num, row !! 0%nat) m.

(** Line 353, for one latitude. *)
Definition cell_area (res lat : num) : num :=
  nmul (nmul (ncos (nradians lat))
             (nmul (num_of_Q (11132 # 100)) (num_of_Q (11057 # 100))))
       (npow res 2).

Definition cell_num (c : Cell) : PyResult num :=
  match c with
  | CInt z => Return (num_of_Z z)
  | CNum x => Return x
  | CStr _ => Raise (Unmodelled "text in a numeric column")
  end.

(** [v + a] for a vector [v] of [n] numbers and a table [a] of [n] rows in
    [k] columns: numpy lines the vector up with the last axis, so the shapes
    go together when [n = k], [n = 1] or [k = 1]. *)
Definition broadcasts (n k : nat) : bool :=
  ((n =? k) || (n =? 1) || (k =? 1))%nat.

Definition add_to_table (v : list num) (cols : list (list num))
    : list (list num) :=
  if (length v =? length cols)%nat
  then zip_with (λ t col, nadd t <$> col) v cols
  else match v, cols with
       | [t], _ => map (map (nadd t)) cols
       | _, [col] => (λ t, nadd t <$> col) <$> v
       | _, _ => []
       end.

(** Line 357: [(sums + spat_water) / (c.resin ** 2)]. *)
Definition cell_fraction (res2 : num) (sums : list num) (water : Values)
    : PyResult Values :=
  match water with
  | Vector s =>
      ws ← nums_of s;
      Return (Vector (NumS (zip_with (λ t w, ndiv (nadd t w) res2) sums ws)))
  | Table cols =>
      if broadcasts (length sums) (length cols) then
        ws ← res_map (res_map cell_num) cols;
        Return (Table (map (map (λ x, CNum (ndiv x res2)))
                         (add_to_table sums ws)))
      else Raise (ValueError m_broadcast)
  end.

(** Line 360: [spat_ludata / (c.resin ** 2) * np.transpose([cellarea, ] *
    len(spat_landclasses))], for a [spat_ludata] of [width] columns.  A
    selection has at least one column for each requested label, so the
    shapes go together when it has exactly one for each, or when one label
    was requested. *)
Definition area_corrected (res2 : num) (classes width : nat)
    (ludata : list (list num)) (cellarea : list num)
    : PyResult (list (list num)) :=
  if ((width =? classes) || (classes =? 1))%nat then
    Return (zip_with (λ row a, (λ x, nmul (ndiv x res2) a) <$> row)
              ludata cellarea)
  else Raise (ValueError m_broadcast).

(** [df[name].as_matrix()]. *)
Definition getitem_values (df : DataFrame) (name : string) : PyResult Values :=
  values <$> getitem df name.

Definition read_base (c : Config) (spat_landclasses : list string)
    : Py BaseOutput :=
  (* read base layer as a dataframe *)
  (df <~ lift (pd_read_csv (first_mod_file c) ",") ;;
   (* rename columns as lower case *)
   let df := rename_lower df in
   (* create array with only spatial land cover values *)
   spat_ludata <~
     try_except
       (cols <~ lift (getitems df spat_landclasses) ;;
        m <~ lift (num_matrix (nrows df) cols) ;;
        ret (Some (length cols, m)))
       is_KeyError
       (λ e, log_error m_missing_fields ANone ;;;
             log_error "{0}" (AExn e) ;;;
             ret None) ;;
   (* create array of latitude, longitude coordinates *)
   spat_coords <~
     try_except
       (lift (getitems df ["latcoord"; "loncoord"] ≫= num_matrix (nrows df)))
       is_KeyError
       (λ _, lift (getitems df ["latitude"; "longitude"]
                     ≫= num_matrix (nrows df))) ;;
   (* create array of metric per region *)
   spat_metric_region <~
     try_except (a <~ lift (getitem_values df "regaez") ;; ret (Some a))
       (λ _, true) (λ _, ret None) ;;
   (* create array of grid ids *)
   spat_grid_id <~ lift (getitem_values df (pkey c)) ;;
   (* create array of water areas *)
   spat_water <~
     try_except (lift (getitem_values df "water")) is_KeyError
       (λ _, log_warning m_no_water ANone ;;; ret (zeros_like spat_grid_id)) ;;
   region_metric <~
     (if agg_level c =? 2 then
        (* for aez scale *)
        spat_region <~ lift (getitem_values df "region_id") ;;
        spat_metric <~
          lift (getitem_values df (lower (metric c) +:+ "_id")) ;;
        ret (Some spat_region, Some spat_metric)
      else if agg_level c =? 1 then
        (* for basin scale *)
        spat_r <~ lift (getitem_values df "region_id") ;;
        spat_metric <~
          lift (getitem_values df (lower (metric c) +:+ "_id")) ;;
        ret (Some (ones_like spat_r), Some spat_metric)
      else ret (None, None)) ;;
   (* get the total number of grid cells *)
   let ngrids := nrows df in
   (* change spatial region value for Taiwan from 30 to 11 *)
   spat_region <~
     (if bool_decide (lower (model c) = "gcam") && (agg_level c =? 2) then
        r <~ local "spat_region" region_metric.1 ;;
        ret (Some (remap_30_to_11 r))
      else ret region_metric.1) ;;
   (* the assignment is made in place, and in a frame of distinct labels
      [df[name].as_matrix()] is the column's own array: the grid ids and
      the metric ids show the change if they were read from [region_id] *)
   let in_place (name : string) (a : Values) :=
     if bool_decide (lower (model c) = "gcam") && (agg_level c =? 2)
        && bool_decide (NoDup (columns df))
        && bool_decide (name = "region_id")
     then remap_30_to_11 a else a in
   let spat_grid_id' := in_place (pkey c) spat_grid_id in
   (* cell area from lat *)
   let cellarea := cell_area (resin c) <$> first_column spat_coords in
   (* the actual percentage of the grid cell included in the data *)
   ludata <~ local "spat_ludata" spat_ludata ;;
   celltrunk <~
     lift (cell_fraction (npow (resin c) 2) (nsum <$> ludata.2) spat_water) ;;
   (* adjust land cover area *)
   ludata <~
     lift (area_corrected (npow (resin c) 2) (length spat_landclasses)
             ludata.1 ludata.2 cellarea) ;;
   spat_metric <~ local "spat_metric" region_metric.2 ;;
   let spat_metric := in_place (lower (metric c) +:+ "_id") spat_metric in
   spat_region <~ local "spat_region" spat_region ;;
   ret (mkBaseOutput ludata spat_water spat_coords spat_metric_region
          spat_grid_id' spat_metric spat_region ngrids cellarea celltrunk))%py.

End Reader.

(** The placement of the placeholder as the specification states it: the
    empty list stands at index [position_of(region 30) - 1] of the per-region
    lists, positions taken in the sorted region numbers. *)
Definition placeholder_as_specified {num} (out : @GcamOutput num) : Prop :=
  ∃ p : nat,
    np_where_first (allregnumber out) 30 = Return (Z.of_nat p) ∧
    (1 ≤ p)%nat ∧ allregaez out !! (p - 1)%nat = Some [].

(** The area correction as the specification states it: every returned
    land-cover value is the raw value multiplied by the quotient of the
    row's cell area and the squared resolution. *)
Definition area_correction_as_specified {num} (nmul ndiv : num → num → num)
    (res2 : num) (raw : list (list num)) (out : @BaseOutput num) : Prop :=
  spat_ludata out
  = zip_with (λ row a, (λ x, nmul x (ndiv a res2)) <$> row) raw (cellarea out).

(** ** Sample inputs *)

(** A projection table with two regions, two metric identifiers and two
    time steps. *)
Definition demo_gdf {num} : @DataFrame num :=
  [("region", StrS ["USA"; "USA"; "China"]);
   ("landclass", StrS ["Forest"; "Crops"; "Forest"]);
   ("metric_id", IntS [231; 17; 231]);
   ("units", StrS ["thous km2"; "thous km2"; "thous km2"]);
   ("1990", IntS [5; 6; 7]);
   ("2005", IntS [10; 20; 30]);
   ("2010", IntS [11; 21; 31])].

(** A projection table of the single region [1]. *)
Definition demo_global {num} : @DataFrame num :=
  [("region", IntS [1; 1]);
   ("landclass", StrS ["Forest"; "Crops"]);
   ("metric_id", IntS [44; 12]);
   ("2005", IntS [10; 20])].

Definition demo_alloc {num} : @DataFrame num :=
  [("Category", StrS ["Forest"; "Crops"]);
   ("forest", IntS [1; 0]);
   ("crops", IntS [0; 1])].

(** A base layer without an [urban] column. *)
Definition demo_base {num} : @DataFrame num :=
  [("FID", IntS [1; 2]);
   ("Latitude", IntS [10; 20]);
   ("Longitude", IntS [5; 6]);
   ("region_id", IntS [11; 30]);
   ("basin_id", IntS [3; 4]);
   ("forest", IntS [1; 0]);
   ("crops", IntS [0; 1]);
   ("water", IntS [0; 0])].

Definition demo_csv {num} (f delim : string) : PyResult (@DataFrame num) :=
  if decide (f = "gcam.csv") then Return demo_gdf
  else if decide (f = "global.csv") then Return demo_global
  else if decide (f = "alloc.csv") then Return demo_alloc
  else if decide (f = "base.csv") then Return demo_base
  else Raise (ReaderError "no such file").

Definition demo_st_size (f : string) : Z :=
  if decide (f = "empty.csv") then 0 else 64.

(** The region reference as the key/value reader delivers it. *)
Definition demo_region_dict : gmap PyVal PyVal :=
  dict_of_pairs [(PStr "USA", PStr "1"); (PStr "China", PStr "11");
                 (PStr "Taiwan", PStr "30")].

(** What the normalizer returns on the first table at aggregation level 2. *)
Definition demo_out : @GcamOutput Z :=
  mkGcamOutput [2005; 2010]
    [[10000; 11000]; [20000; 21000]; [30000; 31000]]
    [2; 1; 2] ["forest"; "crops"; "forest"] [1; 1; 11]
    [PStr "China"; PStr "Taiwan"; PStr "USA"] [1; 11; 30]
    [[]; [1; 2]; [2]] [1; 2] [231; 17; 231].

(** The same reference without China. *)
Definition demo_region_dict_short : gmap PyVal PyVal :=
  dict_of_pairs [(PStr "USA", PStr "1"); (PStr "Taiwan", PStr "30")].

(** A line terminator. *)
Definition nl : string := String (ascii_of_nat 10) "".

(** The lines of a region file: a header, three regions, one of them
    twice. *)
Definition demo_region_lines : list string :=
  ["region_id,region_name" +:+ nl; "1,USA" +:+ nl; "11,China" +:+ nl;
   "30,Taiwan,island" +:+ nl; "12,China" +:+ nl].

(** The lines of a file of region numbers. *)
Definition demo_number_lines : list string :=
  ["name,number" +:+ nl; "USA, 1" +:+ nl; "China,11" +:+ nl].

(** The bytes of that file, its lines ended by a carriage return and a
    line feed. *)
Definition demo_number_bytes : string :=
  "name,number" +:+ String CR nl +:+ "USA, 1" +:+ String CR nl
  +:+ "China,11" +:+ String CR nl.

(** A projection table whose year label carries a leading zero. *)
Definition demo_padded {num} : @DataFrame num :=
  [("region", IntS [1; 1]);
   ("landclass", StrS ["Forest"; "Crops"]);
   ("metric_id", IntS [44; 12]);
   ("02005", IntS [10; 20])].

(** A base layer without a water column. *)
Definition demo_base_dry {num} : @DataFrame num :=
  [("FID", IntS [1; 2]);
   ("Latitude", IntS [10; 20]);
   ("Longitude", IntS [5; 6]);
   ("region_id", IntS [11; 30]);
   ("basin_id", IntS [3; 4]);
   ("forest", IntS [1; 0]);
   ("crops", IntS [0; 1])].

(** An allocation table with two headers that differ in letter case
    only. *)
Definition demo_alloc_twice {num} : @DataFrame num :=
  [("Category", StrS ["Forest"; "Crops"]);
   ("Forest", IntS [1; 0]);
   ("forest", IntS [0; 1])].

(** A base layer without a water column whose grid ids are text. *)
Definition demo_base_named {num} : @DataFrame num :=
  [("FID", StrS ["a1"; "a2"]);
   ("Latitude", IntS [10; 20]);
   ("Longitude", IntS [5; 6]);
   ("region_id", IntS [11; 30]);
   ("basin_id", IntS [3; 4]);
   ("forest", IntS [1; 0]);
   ("crops", IntS [0; 1])].

Definition demo_csv2 {num} (f delim : string) : PyResult (@DataFrame num) :=
  if decide (f = "padded.csv") then Return demo_padded
  else if decide (f = "dry.csv") then Return demo_base_dry
  else if decide (f = "named.csv") then Return demo_base_named
  else if decide (f = "twice.csv") then Return demo_alloc_twice
  else demo_csv f delim.

(** Integer stand-ins for the floating-point operations, to run the base
    layer normalizer on the samples. *)
Definition demo_of_Q (q : Q) : Z := Qnum q / Z.pos (Qden q).
Definition demo_sum (l : list Z) : Z := foldr Z.add 0 l.

Definition demo_config (file : string) (level : Z) : @Config Z :=
  mkConfig file "fid" level "Basin" "GCAM" 1.

Definition demo_read_base (c : @Config Z) (spat_landclasses : list string)
    : Py (@BaseOutput Z) :=
  read_base id demo_of_Q Z.add Z.mul Z.div id id Z.pow demo_sum Z.eqb
    demo_csv2 c spat_landclasses.

(** What the normalizer returns on the first sample table at aggregation
    level 1. *)
Definition demo_out1 : @GcamOutput Z :=
  mkGcamOutput [2005; 2010]
    [[10000; 11000]; [20000; 21000]; [30000; 31000]]
    [2; 1; 2] ["forest"; "crops"; "forest"] [1; 1; 11]
    [PStr "China"; PStr "USA"] [1; 11]
    [[1; 2]; [2]] [1; 2] [231; 17; 231].

(** ** The arithmetic of [float64]

    numpy's [float64] is IEEE 754 binary64, the kernel's [float], and its
    [+], [*] and [/] are the correctly rounded operations.  An integer
    below 2 ** 63 becomes the nearest float, and a decimal literal of the
    source the nearest float to its value, which the quotient of its numerator by its
    power of ten gives (both are exact floats).  [x ** 2] is [x * x], exact
    on the sample.  [np.radians] multiplies by [pi / 180].  The cosine is
    not arithmetic: the sample rows lie on the equator, where
    [cos(radians(0.0))] is exactly [1.0], and the stand-in is defined there
    only. *)
Definition float_of_Z (z : Z) : float :=
  match z with
  | Z0 => 0%float
  | Zpos _ => of_uint63 (Uint63.of_Z z)
  | Zneg p => PrimFloat.opp (of_uint63 (Uint63.of_Z (Zpos p)))
  end.

Definition float_of_Q (q : Q) : float :=
  PrimFloat.div (float_of_Z (Qnum q)) (float_of_Z (Z.pos (Qden q))).

Definition float_pow (x : float) (n : Z) : float :=
  Z.iter n (PrimFloat.mul x) 1%float.

Definition float_sum (l : list float) : float :=
  fold_left PrimFloat.add l 0%float.

Definition float_eqb_Z (x : float) (z : Z) : bool :=
  PrimFloat.eqb x (float_of_Z z).

Definition float_radians (x : float) : float :=
  PrimFloat.mul x (PrimFloat.div 0x1.921fb54442d18p+1%float 180%float).

Definition equator_cos (x : float) : float :=
  if PrimFloat.eqb x 0%float then 1%float else nan.

(** A base layer of two cells on the equator, at a resolution of 1.5
    degrees. *)
Definition demo_base_float : @DataFrame float :=
  [("FID", IntS [1; 2]);
   ("latcoord", NumS [0; 0]%float);
   ("loncoord", NumS [10; 20]%float);
   ("region_id", IntS [11; 30]);
   ("basin_id", IntS [3; 4]);
   ("forest", NumS [1; 0.25]%float);
   ("water", NumS [0.5; 0]%float)].

Definition float_csv (f delim : string) : PyResult (@DataFrame float) :=
  if decide (f = "float.csv") then Return demo_base_float
  else Raise (ReaderError "no such file").

Definition float_config : @Config float :=
  mkConfig "float.csv" "fid" 2 "Basin" "GCAM" 1.5%float.

Definition float_read_base (c : @Config float)
    (spat_landclasses : list string) : Py (@BaseOutput float) :=
  read_base float_of_Z float_of_Q PrimFloat.add PrimFloat.mul PrimFloat.div
    equator_cos float_radians float_pow float_sum float_eqb_Z float_csv
    c spat_landclasses.

(** * Properties *)

(** ** Outcomes *)

Lemma py_int_raises s e : py_int s = Raise e → e = ValueError s.
Proof.
  unfold py_int. destruct (match strip s with
    | String "+" d => unsigned_value d
    | String "-" d => Z.opp <$> unsigned_value d
    | d => unsigned_value d end); congruence.
Qed.

Ltac res_simpl :=
  cbn [mbind fmap mret PyResult_bind PyResult_fmap PyResult_ret res_bind].
Tactic Notation "res_simpl" "in" hyp(H) :=
  cbn [mbind fmap mret PyResult_bind PyResult_fmap PyResult_ret res_bind] in H.

Section TimeSteps.
Context {num : Type}.
Implicit Types (df : @DataFrame num) (labels : list string).

Lemma select_time_steps_cons i labels start_step end_step :
  select_time_steps (i :: labels) start_step end_step =
  match py_int i with
  | Return y =>
      if (start_step <=? y) && (y <=? end_step)
      then y :: select_time_steps labels start_step end_step
      else select_time_steps labels start_step end_step
  | Raise _ => select_time_steps labels start_step end_step
  end.
Proof.
  unfold select_time_steps.
  change (omap parses_as (i :: labels))
    with (match parses_as i with
          | Some y => y :: omap parses_as labels
          | None => omap parses_as labels
          end).
  unfold parses_as at 1. destruct (py_int i) as [y|e]; [|done].
  rewrite filter_cons.
  destruct (decide (start_step ≤ y ≤ end_step)) as [Hy|Hy].
  - replace ((start_step <=? y) && (y <=? end_step)) with true; [done|].
    symmetry. apply andb_true_iff. lia.
  - replace ((start_step <=? y) && (y <=? end_step)) with false; [done|].
    symmetry. apply andb_false_iff. lia.
Qed.

Lemma get_steps_fold labels start_step end_step acc :
  fold_left (get_steps_body start_step end_step) labels (Return acc)
  = Return (acc ++ select_time_steps labels start_step end_step).
Proof.
  revert acc. induction labels as [|i labels IH]; intros acc.
  - simpl. by rewrite app_nil_r.
  - rewrite select_time_steps_cons. cbn [fold_left].
    unfold get_steps_body at 2. cbn [mbind PyResult_bind res_bind].
    destruct (py_int i) as [y|e] eqn:Hi.
    + destruct ((start_step <=? y) && (y <=? end_step)).
      * rewrite IH. by rewrite <- app_assoc.
      * apply IH.
    + apply py_int_raises in Hi as ->. apply IH.
Qed.

Lemma select_time_steps_elem labels start_step end_step y :
  y ∈ select_time_steps labels start_step end_step ↔
  start_step ≤ y ≤ end_step ∧ ∃ label, label ∈ labels ∧ py_int label = Return y.
Proof.
  unfold select_time_steps. rewrite list_elem_of_filter, list_elem_of_omap.
  unfold parses_as. split.
  - intros [Hy (label & Hl & Hp)]. split; [done|]. exists label. split; [done|].
    destruct (py_int label); congruence.
  - intros [Hy (label & Hl & Hp)]. split; [done|]. exists label. by rewrite Hp.
Qed.

(** C6: for every frame (every sequence of column labels) and every pair
    of bounds, [_get_steps] returns without raising exactly the integer
    parses of the labels that parse as integers and lie in
    [[start_step, end_step]], in the labels' left-to-right order
    ([select_time_steps]); labels that do not parse are skipped; and when
    [end_step < start_step] the result is the empty list. *)
Theorem get_steps_selects df start_step end_step :
  _get_steps df start_step end_step
  = Return (select_time_steps (columns df) start_step end_step)
  ∧ (end_step < start_step → _get_steps df start_step end_step = Return []).
Proof.
  assert (Hrun : _get_steps df start_step end_step
                 = Return (select_time_steps (columns df) start_step end_step)).
  { unfold _get_steps. apply (get_steps_fold _ _ _ []). }
  split; [done|]. intros Hlt. rewrite Hrun. f_equal.
  apply elem_of_nil_inv. intros y [Hy _]%select_time_steps_elem. lia.
Qed.
End TimeSteps.

Example get_steps_spec_example :
  _get_steps (num:=Z)
    [("a", StrS []); ("1999", IntS []); ("2005", IntS []); ("x", StrS []);
     ("2010", IntS [])] 2000 2010
  = Return [2005; 2010].
Proof. reflexivity. Qed.


(** ** Distinct values and sorting *)

Section Unique.
Context `{EqDecision A}.
Implicit Types (l : list A) (x : A).

Lemma elem_of_pd_unique l x : x ∈ pd_unique l ↔ x ∈ l.
Proof.
  induction l as [|a l IH]; [done|]. cbn [pd_unique].
  rewrite !elem_of_cons, list_elem_of_filter, IH. split.
  - intros [->|[_ Hx]]; auto.
  - intros [->|Hx]; [auto|]. destruct (decide (x = a)); auto.
Qed.

Lemma NoDup_pd_unique l : NoDup (pd_unique l).
Proof.
  induction l as [|a l IH]; cbn [pd_unique]; [constructor|].
  constructor.
  - rewrite list_elem_of_filter. intros [Hne _]. by apply Hne.
  - by apply NoDup_filter.
Qed.

Lemma pd_unique_sublist l : pd_unique l `sublist_of` l.
Proof.
  induction l as [|a l IH]; cbn [pd_unique]; [done|].
  constructor. etrans; [apply sublist_filter|done].
Qed.

(** The number of distinct values does not depend on their order. *)
Lemma pd_unique_length_perm l1 l2 :
  (∀ x, x ∈ l1 ↔ x ∈ l2) → length (pd_unique l1) = length (pd_unique l2).
Proof.
  intros Hl. apply Permutation_length, NoDup_Permutation;
    [apply NoDup_pd_unique..|].
  intros x. by rewrite !elem_of_pd_unique.
Qed.
End Unique.

Lemma elem_of_sort_ints l x : x ∈ sort_ints l ↔ x ∈ l.
Proof. unfold sort_ints. by rewrite merge_sort_Permutation. Qed.

Lemma elem_of_sort_strs l x : x ∈ sort_strs l ↔ x ∈ l.
Proof. unfold sort_strs. by rewrite merge_sort_Permutation. Qed.

Lemma elem_of_np_unique_ints l x : x ∈ np_unique_ints l ↔ x ∈ l.
Proof. unfold np_unique_ints. by rewrite elem_of_pd_unique, elem_of_sort_ints. Qed.

Lemma elem_of_np_unique_strs l x : x ∈ np_unique_strs l ↔ x ∈ l.
Proof. unfold np_unique_strs. by rewrite elem_of_pd_unique, elem_of_sort_strs. Qed.

Lemma elem_of_np_setdiff1d ar1 ar2 x :
  x ∈ np_setdiff1d ar1 ar2 ↔ x ∈ ar1 ∧ x ∉ ar2.
Proof.
  unfold np_setdiff1d.
  rewrite list_elem_of_filter, !elem_of_np_unique_strs. tauto.
Qed.

Lemma np_setdiff1d_nil ar1 ar2 : np_setdiff1d ar1 ar2 = [] ↔ ar1 ⊆ ar2.
Proof.
  split.
  - intros Hnil x Hx. destruct (decide (x ∈ ar2)) as [|Hn]; [done|].
    assert (x ∈ np_setdiff1d ar1 ar2) as Hin by (by apply elem_of_np_setdiff1d).
    rewrite Hnil in Hin. by apply not_elem_of_nil in Hin.
  - intros Hsub. apply elem_of_nil_inv. intros x [Hx Hn]%elem_of_np_setdiff1d.
    by apply Hn, Hsub.
Qed.

(** ** [_check_constraints] *)

(** The checker returns on every input and only appends to the log. *)
Lemma check_constraints_returns (allocate actual : list string)
    (log : list LogRecord) :
  ∃ ws, _check_constraints allocate actual log = (Return tt, log ++ ws).
Proof.
  unfold _check_constraints.
  destruct (np_setdiff1d (lower <$> actual) (lower <$> allocate));
    destruct (np_setdiff1d (lower <$> allocate) (lower <$> actual));
    cbn [length Nat.ltb Nat.leb Nat.eqb andb].
  - exists []. by rewrite app_nil_r.
  - by eexists [_].
  - by eexists [_].
  - eexists [_; _]. unfold bind, log_warning, emit. by rewrite <- app_assoc.
Qed.

(** C5: for every pair of land-class lists, [_check_constraints] never
    raises; what it adds to the log are warnings only, one per non-empty
    one-sided difference of the lower-cased sets (two when both sides
    differ, none when the sets agree); so it warns if and only if the
    case-insensitive symmetric difference is non-empty. *)
Theorem check_constraints_warns (allocate actual : list string)
    (log : list LogRecord) :
  let alloc := lower <$> allocate in
  let act := lower <$> actual in
  ∃ ws,
    _check_constraints allocate actual log = (Return tt, log ++ ws) ∧
    Forall (λ r, level r = WARNING) ws ∧
    length ws = sides_differing alloc act ∧
    (ws ≠ [] ↔ ∃ x, (x ∈ alloc ∧ x ∉ act) ∨ (x ∈ act ∧ x ∉ alloc)).
Proof.
  intros alloc act. unfold _check_constraints. fold alloc act.
  assert (Hdiff : ∀ a b : list string,
             (∃ x, x ∈ a ∧ x ∉ b) ↔ np_setdiff1d a b ≠ []).
  { intros a b. split.
    - intros (x & Hx & Hn) Hnil%np_setdiff1d_nil. by apply Hn, Hnil.
    - intros Hne. destruct (np_setdiff1d a b) as [|x l] eqn:Hd; [done|].
      exists x. apply elem_of_np_setdiff1d. rewrite Hd. by left. }
  unfold sides_differing.
  destruct (np_setdiff1d act alloc) as [|x1 l1] eqn:H1;
    destruct (np_setdiff1d alloc act) as [|x2 l2] eqn:H2; cbn [length Nat.ltb Nat.leb Nat.eqb andb].
  - exists []. rewrite app_nil_r. split; [done|]. split; [done|].
    apply np_setdiff1d_nil in H1, H2.
    rewrite !bool_decide_eq_true_2 by done. split; [done|].
    split; [done|]. intros (x & [[Hx Hn]|[Hx Hn]]) _; [by apply Hn, H2|by apply Hn, H1].
  - exists [mkLog WARNING m_act_extra (AStrings (x2 :: l2))].
    split; [done|]. split; [by repeat constructor|].
    apply np_setdiff1d_nil in H1.
    assert (¬ alloc ⊆ act) as Hn2 by (rewrite <- np_setdiff1d_nil, H2; done).
    rewrite (bool_decide_eq_true_2 (act ⊆ alloc)),
      (bool_decide_eq_false_2 (alloc ⊆ act)) by done.
    split; [done|]. split; [|done]. intros _.
    destruct (proj2 (Hdiff alloc act)) as (x & Hx); [by rewrite H2|]. eauto.
  - exists [mkLog WARNING m_alloc_extra (AStrings (x1 :: l1))].
    split; [done|]. split; [by repeat constructor|].
    apply np_setdiff1d_nil in H2.
    assert (¬ act ⊆ alloc) as Hn1 by (rewrite <- np_setdiff1d_nil, H1; done).
    rewrite (bool_decide_eq_false_2 (act ⊆ alloc)),
      (bool_decide_eq_true_2 (alloc ⊆ act)) by done.
    split; [done|]. split; [|done]. intros _.
    destruct (proj2 (Hdiff act alloc)) as (x & Hx); [by rewrite H1|]. eauto.
  - exists [mkLog WARNING m_alloc_extra (AStrings (x1 :: l1));
            mkLog WARNING m_act_extra (AStrings (x2 :: l2))].
    split; [unfold bind, log_warning, emit; by rewrite <- app_assoc|].
    split; [by repeat constructor|].
    assert (¬ act ⊆ alloc) as Hn1 by (rewrite <- np_setdiff1d_nil, H1; done).
    assert (¬ alloc ⊆ act) as Hn2 by (rewrite <- np_setdiff1d_nil, H2; done).
    rewrite !bool_decide_eq_false_2 by done.
    split; [done|]. split; [|done]. intros _.
    destruct (proj2 (Hdiff act alloc)) as (x & Hx); [by rewrite H1|]. eauto.
Qed.

(** ** Frames *)

Section Frames.
Context {num : Type}.
Implicit Types (df : @DataFrame num) (name : string).

Lemma elem_of_labelled df name s :
  s ∈ labelled df name ↔ (name, s) ∈ df.
Proof.
  unfold labelled. rewrite list_elem_of_fmap. split.
  - intros ([n s'] & -> & [Hn Hin]%list_elem_of_filter). cbn in Hn. by subst n.
  - intros Hin. exists (name, s). split; [done|]. by apply list_elem_of_filter.
Qed.

Lemma labelled_nil df name : labelled df name = [] ↔ name ∉ columns df.
Proof.
  split.
  - intros Hl ([n s] & -> & Hin)%list_elem_of_fmap. cbn in Hl.
    apply elem_of_labelled in Hin. rewrite Hl in Hin.
    by apply not_elem_of_nil in Hin.
  - intros Hn. destruct (labelled df name) as [|s l] eqn:Hl; [done|].
    destruct Hn. apply list_elem_of_fmap. exists (name, s). split; [done|].
    apply elem_of_labelled. rewrite Hl. by left.
Qed.

Lemma getitem_Return df name :
  name ∈ columns df → ∃ x, getitem df name = Return x.
Proof.
  intros Hin. unfold getitem.
  destruct (labelled df name) as [|s [|s' l]] eqn:Hl; [|by eexists..].
  by apply labelled_nil in Hl.
Qed.

Lemma getitem_Raise df name e :
  getitem df name = Raise e → (name ∉ columns df) ∧ e = KeyError [PStr name].
Proof.
  unfold getitem.
  destruct (labelled df name) as [|s [|s' l]] eqn:Hl; [|done..].
  intros [= <-]. split; [|done]. by apply labelled_nil.
Qed.

Lemma res_map_Return {A B} (g : A → PyResult B) (l : list A) :
  (∀ x, x ∈ l → ∃ y, g x = Return y) →
  ∃ ys, res_map g l = Return ys ∧ length ys = length l.
Proof.
  induction l as [|x l IH]; intros Hg; [by exists []|].
  destruct (Hg x) as [y Hy]; [by left|].
  destruct IH as (ys & Hys & Hlen); [intros; apply Hg; by right|].
  exists (y :: ys). cbn [res_map]. rewrite Hy, Hys. split; [done|].
  cbn [length]. by rewrite Hlen.
Qed.

Lemma res_map_inv {A B} (g : A → PyResult B) (l : list A) ys :
  res_map g l = Return ys → Forall2 (λ x y, g x = Return y) l ys.
Proof.
  revert ys. induction l as [|x l IH]; intros ys; cbn [res_map].
  - intros [= <-]. constructor.
  - destruct (g x) as [y|e] eqn:Hx; [|done]. cbn [res_bind].
    destruct (res_map g l) as [ys'|e]; [|done]. cbn [res_bind].
    intros [= <-]. constructor; [done|by apply IH].
Qed.

(** A loop that meets a raising element raises at the first one. *)
Lemma res_map_first_Raise {A B} (g : A → PyResult B) (l : list A) :
  (∃ x, x ∈ l ∧ ∃ e, g x = Raise e) →
  ∃ x e, x ∈ l ∧ g x = Raise e ∧ res_map g l = Raise e.
Proof.
  induction l as [|a l IH]; intros (x & Hx & e & He).
  - by apply not_elem_of_nil in Hx.
  - cbn [res_map]. destruct (g a) as [y|e'] eqn:Ha.
    + apply elem_of_cons in Hx as [->|Hx]; [congruence|].
      destruct IH as (x' & e' & Hx' & He' & Hr); [by eauto|].
      exists x', e'. rewrite Hr. split; [by right|]. by split.
    + exists a, e'. split; [by left|]. by split.
Qed.

Lemma getitems_present df names :
  names ⊆ columns df → getitems df names = Return (names ≫= labelled df).
Proof.
  intros Hsub. unfold getitems.
  destruct (filter (λ n, n ∉ columns df) names) as [|n l] eqn:Hf; [done|].
  assert (n ∈ filter (λ n, n ∉ columns df) names) as Hn by (rewrite Hf; by left).
  apply list_elem_of_filter in Hn as [Hn Hin]. destruct Hn. by apply Hsub.
Qed.

Lemma getitems_Return df names :
  names ⊆ columns df → ∃ ss, getitems df names = Return ss.
Proof. intros Hsub. eexists. by apply getitems_present. Qed.
End Frames.

(** ** [read_alloc] *)

Section Allocation.
Context {num : Type}.
Variable num_of_Z : Z → num.
Variable os_stat_st_size : string → Z.
Variable pd_read_csv : string → string → PyResult (@DataFrame num).

Local Abbreviation read_alloc := (read_alloc num_of_Z os_stat_st_size pd_read_csv).

(** C8: on a zero-byte file [read_alloc] returns the empty class list and
    the empty array, whatever the output level, target column and
    delimiter, and does not raise. *)
Theorem read_alloc_empty_file (f lc_col delim : string) (output_level : Z) :
  os_stat_st_size f = 0 →
  read_alloc f lc_col output_level delim = Return (Tuple2 [] (Array1 [])).
Proof. intros Hsize. unfold read_alloc. by rewrite Hsize. Qed.

(** C10: on a non-empty allocation file (one that pandas parses to a frame
    whose target land-cover column is text and the only column under its
    lower-cased name), with an output level other than 1, 2 and 3,
    [read_alloc] falls through every branch: it returns [None] and does not
    raise. *)
Theorem read_alloc_unknown_level (f lc_col delim : string) (output_level : Z)
    (df : DataFrame) :
  os_stat_st_size f ≠ 0 →
  pd_read_csv f delim = Return df →
  allocation_table df lc_col →
  output_level ∉ [1; 2; 3] →
  read_alloc f lc_col output_level delim = Return PyNone.
Proof.
  intros Hsize Hdf [tcs Htcs] Hlevel. unfold read_alloc.
  apply Z.eqb_neq in Hsize. rewrite Hsize. cbn [negb].
  rewrite Hdf. cbn [mbind PyResult_bind res_bind]. rewrite Htcs.
  cbn [res_bind str_lower_tolist].
  destruct (getitems_Return (rename_lower df)
              (filter (λ i, i ≠ lower lc_col) (columns (rename_lower df))))
    as [ss Hss].
  { intros x Hx. by apply list_elem_of_filter in Hx as [_ Hx]. }
  rewrite Hss. cbn [fmap PyResult_fmap res_bind].
  rewrite !not_elem_of_cons in Hlevel. destruct Hlevel as (H1 & H2 & H3 & _).
  apply Z.eqb_neq in H1, H2, H3. by rewrite H1, H2, H3.
Qed.
End Allocation.

(** ** The metric lookup *)

Section Dict.
Context `{Countable K} {V : Type}.
Implicit Types (pairs : list (K * V)) (d : gmap K V).

Lemma dict_fold_lookup pairs d k v :
  NoDup pairs.*1 →
  fold_left (λ d kv, <[kv.1 := kv.2]> d) pairs d !! k = Some v ↔
  (k, v) ∈ pairs ∨ ((k ∉ pairs.*1) ∧ d !! k = Some v).
Proof.
  revert d. induction pairs as [|[k' v'] pairs IH]; intros d Hnd.
  - cbn. split; [intros Hd; right; split; [apply not_elem_of_nil|done]|].
    intros [Hin|[_ Hd]]; [by apply not_elem_of_nil in Hin|done].
  - cbn [fold_left fmap list_fmap fst snd] in *.
    apply NoDup_cons in Hnd as [Hk' Hnd]. rewrite IH by done.
    rewrite elem_of_cons, not_elem_of_cons. split.
    + intros [Hin|[Hn Hd]]; [by left; right|].
      destruct (decide (k' = k)) as [->|Hne].
      * rewrite lookup_insert_eq in Hd. left; left. congruence.
      * rewrite lookup_insert_ne in Hd by done. right. by repeat split.
    + intros [[Heq|Hin]|[[Hne Hn] Hd]]; [|by left|].
      * injection Heq as -> ->. right. split; [done|]. apply lookup_insert_eq.
      * right. split; [done|]. by rewrite lookup_insert_ne.
Qed.

Lemma dict_of_pairs_lookup pairs k v :
  NoDup pairs.*1 → dict_of_pairs pairs !! k = Some v ↔ (k, v) ∈ pairs.
Proof.
  intros Hnd. unfold dict_of_pairs. rewrite dict_fold_lookup by done.
  rewrite lookup_empty. split; [intros [?|[_ ?]]; done|by left].
Qed.
End Dict.

Lemma enumerate_from_1_fst {A} (l : list A) : (enumerate_from_1 l).*1 = l.
Proof.
  unfold enumerate_from_1. apply list_eq. intros i.
  rewrite list_lookup_fmap, list_lookup_imap. by destruct (l !! i).
Qed.

Lemma elem_of_enumerate_from_1 {A} (l : list A) x k :
  (x, k) ∈ enumerate_from_1 l ↔ ∃ i : nat, l !! i = Some x ∧ k = Z.of_nat i + 1.
Proof.
  unfold enumerate_from_1. rewrite list_elem_of_lookup. split.
  - intros [i Hi]. rewrite list_lookup_imap in Hi. exists i.
    destruct (l !! i); simplify_eq/=. done.
  - intros (i & Hi & ->). exists i. by rewrite list_lookup_imap, Hi.
Qed.

Section Sorted.
Context {A : Type} (R : relation A).

Lemma StronglySorted_filter (P : A → Prop) `{∀ x, Decision (P x)} l :
  StronglySorted R l → StronglySorted R (filter P l).
Proof.
  induction 1 as [|a l Hs IH Ha]; [constructor|].
  rewrite filter_cons. destruct (decide (P a)); [|done].
  constructor; [done|]. rewrite Forall_forall in *.
  intros x [_ Hx]%list_elem_of_filter. by apply Ha.
Qed.

Lemma StronglySorted_pd_unique `{EqDecision A} l :
  StronglySorted R l → StronglySorted R (pd_unique l).
Proof.
  induction 1 as [|a l Hs IH Ha]; cbn [pd_unique]; [constructor|].
  constructor; [by apply StronglySorted_filter|].
  rewrite Forall_forall in *.
  intros x [_ Hx]%list_elem_of_filter.
  apply Ha, (proj1 (elem_of_pd_unique l x)), Hx.
Qed.

Lemma StronglySorted_lookup l (i j : nat) x y :
  StronglySorted R l → l !! i = Some x → l !! j = Some y → (i < j)%nat → R x y.
Proof.
  intros Hs. revert i j. induction Hs as [|a l Hs IH Ha]; intros i j Hi Hj Hij.
  - by rewrite lookup_nil in Hi.
  - destruct j as [|j]; [lia|]. cbn in Hj. destruct i as [|i].
    + cbn in Hi. injection Hi as ->. rewrite Forall_forall in Ha.
      apply Ha. by eapply list_elem_of_lookup_2.
    + cbn in Hi. apply (IH i j); [done..|lia].
Qed.
End Sorted.

Lemma sorted_ids_NoDup metric_id : NoDup (sorted_ids metric_id).
Proof. apply NoDup_pd_unique. Qed.

Lemma elem_of_sorted_ids metric_id x : x ∈ sorted_ids metric_id ↔ x ∈ metric_id.
Proof. apply elem_of_np_unique_ints. Qed.

Lemma sorted_ids_ascending metric_id (i j : nat) x y :
  sorted_ids metric_id !! i = Some x → sorted_ids metric_id !! j = Some y →
  (i < j)%nat → x < y.
Proof.
  intros Hi Hj Hij.
  assert (StronglySorted Z.le (sorted_ids metric_id)) as Hs.
  { apply StronglySorted_pd_unique, StronglySorted_merge_sort; apply _. }
  pose proof (StronglySorted_lookup _ _ _ _ _ _ Hs Hi Hj Hij) as Hle.
  destruct (decide (x = y)) as [->|Hne]; [|lia].
  pose proof (NoDup_lookup _ _ _ _ (sorted_ids_NoDup metric_id) Hi Hj). lia.
Qed.

Lemma sorted_ids_length metric_id :
  length (sorted_ids metric_id) = size (list_to_set metric_id : gset Z).
Proof.
  rewrite <- (size_list_to_set (C:=gset Z)) by apply sorted_ids_NoDup.
  f_equal. apply set_eq. intros x.
  by rewrite !elem_of_list_to_set, elem_of_sorted_ids.
Qed.

Lemma metric_lookup_spec metric_id x k :
  metric_lookup metric_id !! x = Some k ↔
  ∃ i : nat, sorted_ids metric_id !! i = Some x ∧ k = Z.of_nat i + 1.
Proof.
  unfold metric_lookup. rewrite dict_of_pairs_lookup.
  - apply elem_of_enumerate_from_1.
  - rewrite enumerate_from_1_fst. apply sorted_ids_NoDup.
Qed.

Lemma sequential_metric_Return metric_id :
  ∃ l, sequential_metric metric_id = Return l ∧
       Forall2 (λ x k, metric_lookup metric_id !! x = Some k) metric_id l.
Proof.
  unfold sequential_metric.
  assert (Hall : Forall (λ x, x ∈ metric_id) metric_id) by by apply Forall_forall.
  revert Hall. generalize (metric_lookup_spec metric_id).
  generalize (elem_of_sorted_ids metric_id).
  generalize (metric_lookup metric_id) (sorted_ids metric_id). intros lu ids Hin Hlu.
  generalize metric_id at 2 3 4 as l.
  induction l as [|x l IH]; intros Hall; [exists []; by split|].
  apply Forall_cons in Hall as [Hx Hall]. destruct (IH Hall) as (ks & Hks & Hf).
  apply Hin, list_elem_of_lookup in Hx as [i Hi].
  assert (lu !! x = Some (Z.of_nat i + 1)) as Hk by (apply Hlu; eauto).
  exists ((Z.of_nat i + 1) :: ks). cbn [res_map]. unfold dict_getitem at 1.
  rewrite Hk. cbn [res_bind]. rewrite Hks. split; [done|]. by constructor.
Qed.

(** ** Frames, continued *)

Section Frames2.
Context {num : Type}.
Implicit Types (df : @DataFrame num) (name : string).

Lemma labelled_cons n s df name :
  labelled ((n, s) :: df) name
  = if decide (n = name) then s :: labelled df name else labelled df name.
Proof.
  unfold labelled. cbn. by destruct (decide (n = name)).
Qed.

Lemma labelled_app df1 df2 name :
  labelled (df1 ++ df2) name = labelled df1 name ++ labelled df2 name.
Proof.
  induction df1 as [|[n s] df1 IH]; [done|]. cbn [app].
  rewrite !labelled_cons, IH. by destruct (decide (n = name)).
Qed.

Lemma labelled_setitem_ne df n s name :
  name ≠ n → labelled (setitem df n s) name = labelled df name.
Proof.
  intros Hne. unfold setitem. destruct (decide (n ∈ columns df)) as [_|_].
  - induction df as [|[n' s'] df IH]; [done|].
    cbn [fmap list_fmap]. cbn [fst]. destruct (decide (n' = n)) as [->|Hn'].
    + rewrite !labelled_cons. destruct (decide (n = name)); [congruence|]. apply IH.
    + rewrite !labelled_cons. destruct (decide (n' = name)); [by rewrite IH|]. apply IH.
  - rewrite labelled_app, labelled_cons. destruct (decide (n = name)); [congruence|].
    apply app_nil_r.
Qed.

Lemma getitem_setitem_ne df n s name :
  name ≠ n → getitem (setitem df n s) name = getitem df name.
Proof. intros Hne. unfold getitem. by rewrite labelled_setitem_ne. Qed.

Lemma getitem_with_scenario df scenario name :
  name ≠ "scenario" →
  getitem (with_scenario df scenario) name = getitem df name.
Proof. apply getitem_setitem_ne. Qed.

Lemma nrows_with_scenario df scenario :
  nrows (with_scenario df scenario) = nrows df.
Proof.
  unfold with_scenario, setitem.
  destruct (decide ("scenario" ∈ columns df)) as [_|_].
  - destruct df as [|[n s] df]; [done|]. cbn [fmap list_fmap]. cbn [fst].
    destruct (decide (n = "scenario")); [|done].
    cbn [nrows series_len]. apply length_replicate.
  - destruct df as [|[n s] df]; [|done]. cbn. done.
Qed.
End Frames2.

(** ** List insertion and the placeholder index *)

Lemma py_insert_length {A} (i : Z) (x : A) (l : list A) :
  length (py_insert i x l) = S (length l).
Proof.
  unfold py_insert. rewrite length_app. cbn [length].
  rewrite length_take, length_drop. lia.
Qed.

Lemma py_insert_lookup {A} (i : Z) (x : A) (l : list A) :
  0 ≤ i →
  py_insert i x l !! Z.to_nat (Z.min i (Z.of_nat (length l))) = Some x.
Proof.
  intros Hi. unfold py_insert.
  replace (i <? 0) with false by (symmetry; apply Z.ltb_ge; lia).
  set (j := Z.to_nat (Z.min i (Z.of_nat (length l)))).
  assert (length (take j l) = j) as Hlen by (rewrite length_take; lia).
  rewrite <- Hlen at 1. apply list_lookup_middle. done.
Qed.

Lemma np_where_first_Return `{EqDecision A} (arr : list A) (x : A) :
  x ∈ arr →
  ∃ i : nat, np_where_first arr x = Return (Z.of_nat i) ∧ arr !! i = Some x.
Proof.
  intros Hin. unfold np_where_first.
  destruct (list_find_elem_of (λ y, y = x) arr x Hin eq_refl) as [[i y] Hf].
  rewrite Hf. exists i. split; [done|].
  apply list_find_Some in Hf as (Hi & -> & _). done.
Qed.

Lemma taiwan_in_sorted_names (l : list PyVal) :
  PStr "Taiwan" ∈ np_array_sorted (l ++ [PStr "Taiwan"]).
Proof.
  unfold np_array_sorted.
  destruct (mapM int_of_val (l ++ [PStr "Taiwan"])) as [zs|] eqn:Hm.
  - apply mapM_Some in Hm. apply Forall2_app_inv_l in Hm as (k1 & k2 & _ & Hk & _).
    apply Forall2_cons_inv_l in Hk as (z & k & Hz & _). done.
  - apply list_elem_of_fmap. exists "Taiwan". split; [done|].
    apply elem_of_sort_strs, list_elem_of_fmap. exists (PStr "Taiwan").
    split; [done|]. apply elem_of_app. right. by left.
Qed.

(** ** [read_gcam_file] *)

Section Projection.
Context {num : Type}.
Variable num_of_Z : Z → num.
Variable nmul : num → num → num.
Variable pd_read_csv : string → string → PyResult (@DataFrame num).

Local Abbreviation read_gcam_file := (read_gcam_file num_of_Z nmul pd_read_csv).
Local Abbreviation projection_table := (projection_table num_of_Z).
Local Abbreviation year_data := (year_data num_of_Z).

Ltac gcam_steps Hcsv Hlc Hid Hreg Hws Hy Hgm :=
  unfold read_gcam_file, bind, lift, ret; rewrite Hcsv, Hlc;
  res_simpl; cbn [tolist_strs]; rewrite Hws, Hy;
  rewrite !getitem_with_scenario by done; rewrite Hlc, Hid;
  res_simpl; cbn [tolist_strs int_codes]; res_simpl;
  rewrite Hgm, Hreg, nrows_with_scenario.

(** The reference dictionary reaches the result through the region numbers
    only. *)
Lemma read_gcam_file_dict_ext (f : string) (gcam_landclasses : list string)
    (start_yr end_yr : Z) (scenario : string) (d1 d2 : gmap PyVal PyVal)
    (agg : Z) (area_factor : num) (log : list LogRecord)
    (gdf : DataFrame) landclass metric_id region :
  pd_read_csv f "," = Return gdf →
  projection_table gdf start_yr end_yr landclass metric_id region →
  region_numbers (nrows gdf) region d1 = region_numbers (nrows gdf) region d2 →
  read_gcam_file f gcam_landclasses start_yr end_yr scenario d1 agg
    area_factor log
  = read_gcam_file f gcam_landclasses start_yr end_yr scenario d2 agg
      area_factor log.
Proof.
  intros Hcsv (Hlc & Hid & Hreg & Hyears) Hrn.
  destruct (Hyears scenario) as [years Hy].
  destruct (check_constraints_returns gcam_landclasses landclass log)
    as (ws & Hws).
  destruct (sequential_metric_Return metric_id) as (gm & Hgm & _).
  gcam_steps Hcsv Hlc Hid Hreg Hws Hy Hgm. by rewrite Hrn.
Qed.

(** The two ways a call on a projection table ends: the region lookup
    raises and the call raises the same, or it returns the record built
    from the region numbers. *)
Lemma read_gcam_file_run (f : string) (gcam_landclasses : list string)
    (start_yr end_yr : Z) (scenario : string) (region_dict : gmap PyVal PyVal)
    (agg_level : Z) (area_factor : num) (log : list LogRecord)
    (gdf : DataFrame) landclass metric_id region :
  pd_read_csv f "," = Return gdf →
  projection_table gdf start_yr end_yr landclass metric_id region →
  ∃ ws years gm,
    sequential_metric metric_id = Return gm ∧
    ((∃ e, region_numbers (nrows gdf) region region_dict = Raise e ∧
           read_gcam_file f gcam_landclasses start_yr end_yr scenario
             region_dict agg_level area_factor log = (Raise e, log ++ ws))
     ∨
     (∃ rn regaez infos,
        region_numbers (nrows gdf) region region_dict = Return rn ∧
        (if agg_level =? 2
         then ∃ p : nat,
             np_where_first
               (np_array_sorted (pd_unique region ++ [PStr "Taiwan"]))
               (PStr "Taiwan") = Return (Z.of_nat p) ∧
             regaez = py_insert (Z.of_nat p - 1) [] (region_metric_lists rn gm)
         else regaez = region_metric_lists rn gm) ∧
        read_gcam_file f gcam_landclasses start_yr end_yr scenario
          region_dict agg_level area_factor log
        = (Return
             (mkGcamOutput years.1 (scale_matrix nmul area_factor years.2)
                gm (apply_lower landclass) rn
                (np_array_sorted
                   (if agg_level =? 2 then pd_unique region ++ [PStr "Taiwan"]
                    else pd_unique region))
                (sort_ints
                   (if agg_level =? 2 then pd_unique rn ++ [30]
                    else pd_unique rn))
                regaez (np_unique_ints gm) metric_id),
           log ++ ws ++ infos))).
Proof.
  intros Hcsv (Hlc & Hid & Hreg & Hyears).
  destruct (Hyears scenario) as [years Hy].
  destruct (check_constraints_returns gcam_landclasses landclass log)
    as (ws & Hws).
  destruct (sequential_metric_Return metric_id) as (gm & Hgm & _).
  exists ws, years, gm. split; [done|].
  gcam_steps Hcsv Hlc Hid Hreg Hws Hy Hgm.
  destruct (region_numbers (nrows gdf) region region_dict) as [rn|e] eqn:Hrn.
  - right. unfold log_info, emit.
    destruct (agg_level =? 2) eqn:Hagg.
    + destruct (np_where_first_Return _ _ (taiwan_in_sorted_names (pd_unique region)))
        as (p & Hp & _).
      eexists rn, _, _. split; [done|]. split; [exists p; split; [done|reflexivity]|].
      rewrite Hp. res_simpl. rewrite <- !app_assoc. reflexivity.
    + eexists rn, _, _. split; [done|]. split; [reflexivity|].
      rewrite <- !app_assoc. reflexivity.
  - left. by exists e.
Qed.

(** C1: the lookup built at line 222 is defined exactly on the raw metric
    identifiers of the table, takes its values in [1..N] for [N] the number
    of distinct identifiers, reaches every index of [1..N], gives distinct
    identifiers distinct indices, and is increasing in the raw identifier;
    line 225 succeeds on every row, and in what [read_gcam_file] returns
    every row's sequential metric is the index assigned to the row's raw
    identifier. *)
Theorem metric_lookup_bijection (metric_id : list Z) :
  let lu := metric_lookup metric_id in
  let N := Z.of_nat (size (list_to_set metric_id : gset Z)) in
  (∀ x, x ∈ metric_id ↔ is_Some (lu !! x)) ∧
  (∀ x k, lu !! x = Some k → 1 ≤ k ≤ N) ∧
  (∀ k, 1 ≤ k ≤ N → ∃ x, lu !! x = Some k) ∧
  (∀ x y k, lu !! x = Some k → lu !! y = Some k → x = y) ∧
  (∀ x y i j, lu !! x = Some i → lu !! y = Some j → (x < y ↔ i < j)) ∧
  (∃ l, sequential_metric metric_id = Return l ∧
        Forall2 (λ x k, lu !! x = Some k) metric_id l) ∧
  (∀ f gcam_landclasses start_yr end_yr scenario region_dict agg_level
     area_factor log gdf landclass region out log',
     pd_read_csv f "," = Return gdf →
     projection_table gdf start_yr end_yr landclass metric_id region →
     read_gcam_file f gcam_landclasses start_yr end_yr scenario region_dict
       agg_level area_factor log = (Return out, log') →
     metric_id_array out = metric_id ∧
     Forall2 (λ x k, lu !! x = Some k) metric_id (gcam_metric out)).
Proof.
  intros lu N. subst lu N. rewrite <- sorted_ids_length.
  assert (Hlen : ∀ i x, sorted_ids metric_id !! i = Some x →
                   (i < length (sorted_ids metric_id))%nat).
  { intros i x Hi. by eapply lookup_lt_Some. }
  split_and!.
  - intros x. split.
    + intros Hx. apply elem_of_sorted_ids, list_elem_of_lookup in Hx as [i Hi].
      exists (Z.of_nat i + 1). apply metric_lookup_spec. eauto.
    + intros [k (i & Hi & _)%metric_lookup_spec].
      apply elem_of_sorted_ids. by eapply list_elem_of_lookup_2.
  - intros x k (i & Hi & ->)%metric_lookup_spec. apply Hlen in Hi. lia.
  - intros k [Hk1 Hk2].
    destruct (lookup_lt_is_Some_2 (sorted_ids metric_id) (Z.to_nat (k - 1)))
      as [x Hx]; [lia|].
    exists x. apply metric_lookup_spec. exists (Z.to_nat (k - 1)). split; [done|lia].
  - intros x y k (i & Hi & ->)%metric_lookup_spec (j & Hj & Hij)%metric_lookup_spec.
    assert (i = j) as -> by lia. congruence.
  - intros x y i j (a & Ha & ->)%metric_lookup_spec (b & Hb & ->)%metric_lookup_spec.
    split.
    + intros Hxy. destruct (decide (a < b)%nat) as [|Hge]; [lia|].
      destruct (decide (a = b)) as [->|Hne]; [simplify_eq; lia|].
      assert (y < x)
        by (apply (sorted_ids_ascending metric_id b a); [done..|lia]).
      lia.
    + intros Hij. apply (sorted_ids_ascending metric_id a b); [done..|lia].
  - apply sequential_metric_Return.
  - intros f lcs start_yr end_yr scenario region_dict agg area_factor log gdf
      landclass region out log' Hcsv Hpt Hout.
    destruct (read_gcam_file_run f lcs start_yr end_yr scenario region_dict
                agg area_factor log gdf landclass metric_id region Hcsv Hpt)
      as (ws & years & gm & Hgm & Hrun).
    destruct (sequential_metric_Return metric_id) as (l & Hl & Hf).
    destruct Hrun as [(e & _ & Hr)|(rn & regaez & infos & _ & _ & Hr)];
      rewrite Hr in Hout; simplify_eq.
    assert (gm = l) as -> by congruence. by split.
Qed.

Lemma region_numbers_shortcut (n : nat) region region_dict :
  pd_unique region = [PInt 1] →
  region_numbers n region region_dict = Return (replicate n 1).
Proof. intros Hu. unfold region_numbers. by rewrite Hu. Qed.

Lemma region_numbers_lookup (n : nat) region region_dict :
  pd_unique region ≠ [PInt 1] →
  region_numbers n region region_dict
  = res_map (λ x, dict_getitem id region_dict x ≫= py_int_val) region.
Proof.
  intros Hu. unfold region_numbers.
  destruct (pd_unique region) as [|v [|v' ck]]; [done| |done].
  cbn [length Nat.eqb andb lookup list_lookup].
  rewrite bool_decide_eq_false_2; [done|]. congruence.
Qed.

(** C2: on a projection table whose only distinct region value is the
    number 1, every row gets region number 1 and the result of the call is
    the same for every reference dictionary; on any other table a returned
    row's region number is the integer held by the reference under the
    row's region, and, the reference being numeric, the call returns when
    every region is in the reference and raises a [KeyError] naming an
    absent region when one is not. *)
Theorem region_numbers_rule (f : string) (gcam_landclasses : list string)
    (start_yr end_yr : Z) (scenario : string) (region_dict : gmap PyVal PyVal)
    (agg : Z) (area_factor : num) (log : list LogRecord)
    (gdf : DataFrame) landclass metric_id region :
  pd_read_csv f "," = Return gdf →
  projection_table gdf start_yr end_yr landclass metric_id region →
  let run := λ d, read_gcam_file f gcam_landclasses start_yr end_yr scenario
                    d agg area_factor log in
  (pd_unique region = [PInt 1] →
     (∀ d, run d = run region_dict) ∧
     ∃ out log', run region_dict = (Return out, log') ∧
                 gcam_regionnumber out = replicate (nrows gdf) 1) ∧
  (pd_unique region ≠ [PInt 1] →
     (∀ out log', run region_dict = (Return out, log') →
        Forall2 (λ x z, ∃ v, region_dict !! x = Some v ∧
                             py_int_val v = Return z)
          region (gcam_regionnumber out)) ∧
     (numeric_reference region region_dict →
        ((∀ x, x ∈ region → is_Some (region_dict !! x)) →
           ∃ out log', run region_dict = (Return out, log')) ∧
        ((∃ x, x ∈ region ∧ region_dict !! x = None) →
           ∃ x log', x ∈ region ∧ region_dict !! x = None ∧
                     run region_dict = (Raise (KeyError [x]), log')))).
Proof.
  intros Hcsv Hpt run. subst run.
  destruct (read_gcam_file_run f gcam_landclasses start_yr end_yr scenario
              region_dict agg area_factor log gdf landclass metric_id region
              Hcsv Hpt) as (ws & years & gm & Hgm & Hrun).
  split.
  - intros Hone. split.
    + intros d. eapply read_gcam_file_dict_ext; [done..|].
      by rewrite !region_numbers_shortcut.
    + rewrite region_numbers_shortcut in Hrun by done.
      destruct Hrun as [(e & He & _)|(rn & regaez & infos & Hrn & _ & Hr)];
        [done|].
      injection Hrn as <-. by eexists _, _.
  - intros Hmany. rewrite region_numbers_lookup in Hrun by done.
    assert (Hstep : ∀ x, dict_getitem id region_dict x ≫= py_int_val
                         = match region_dict !! x with
                           | Some v => py_int_val v
                           | None => Raise (KeyError [x])
                           end).
    { intros x. unfold dict_getitem. by destruct (region_dict !! x). }
    split; [|intros Hnum; split].
    + intros out log' Hout.
      destruct Hrun as [(e & He & Hr)|(rn & regaez & infos & Hrn & _ & Hr)];
        rewrite Hr in Hout; simplify_eq. cbn.
      apply res_map_inv in Hrn. eapply Forall2_impl; [exact Hrn|].
      intros x z Hxz. cbn beta in Hxz. rewrite Hstep in Hxz.
      destruct (region_dict !! x) as [v|]; [by eauto|done].
    + intros Hall.
      destruct Hrun as [(e & He & Hr)|(rn & regaez & infos & Hrn & _ & Hr)];
        [|by eauto].
      destruct (res_map_Return
                  (λ x, dict_getitem id region_dict x ≫= py_int_val) region)
        as (ys & Hys & _); [|congruence].
      intros x Hx. destruct (Hall x Hx) as [v Hv]. rewrite Hstep, Hv.
      by eapply Hnum.
    + intros Hmiss.
      destruct (res_map_first_Raise
                  (λ x, dict_getitem id region_dict x ≫= py_int_val) region)
        as (x & e & Hx & He & Hr).
      { destruct Hmiss as (x & Hx & Hn). exists x. split; [done|].
        exists (KeyError [x]). by rewrite Hstep, Hn. }
      rewrite Hstep in He. destruct (region_dict !! x) as [v|] eqn:Hv.
      { destruct (Hnum _ _ Hx Hv) as [z Hz]. congruence. }
      injection He as <-.
      destruct Hrun as [(e & He & Hrun)|(rn & regaez & infos & Hrn & _)];
        [|congruence].
      rewrite Hr in He. injection He as <-. by eexists x, _.
Qed.

Lemma sort_ints_length l : length (sort_ints l) = length l.
Proof. unfold sort_ints. by rewrite merge_sort_Permutation. Qed.

Lemma region_metric_lists_length rn gm :
  length (region_metric_lists rn gm) = length (pd_unique rn).
Proof.
  unfold region_metric_lists, groupby_lists, np_unique_ints.
  rewrite !length_fmap. apply pd_unique_length_perm.
  intros x. apply elem_of_sort_ints.
Qed.

Lemma pd_unique_size (rn : list Z) :
  length (pd_unique rn) = size (list_to_set rn : gset Z).
Proof.
  rewrite <- (size_list_to_set (C:=gset Z)) by apply NoDup_pd_unique.
  f_equal. apply set_eq. intros x.
  by rewrite !elem_of_list_to_set, elem_of_pd_unique.
Qed.

(** Where the placeholder goes: at aggregation level 2 the returned
    per-region lists are the lists of the region numbers present, region
    numbers ascending, with one empty list put in by [list.insert] at index
    [p - 1], where [p] is the position of 'Taiwan' in the sorted array of
    region names (the table's distinct region names and 'Taiwan'), not in
    the sorted region numbers. *)
Lemma placeholder_insertion (f : string) (gcam_landclasses : list string)
    (start_yr end_yr : Z) (scenario : string) (region_dict : gmap PyVal PyVal)
    (area_factor : num) (log : list LogRecord)
    (gdf : DataFrame) landclass metric_id region out log' :
  pd_read_csv f "," = Return gdf →
  projection_table gdf start_yr end_yr landclass metric_id region →
  read_gcam_file f gcam_landclasses start_yr end_yr scenario region_dict 2
    area_factor log = (Return out, log') →
  let groups := region_metric_lists (gcam_regionnumber out) (gcam_metric out) in
  allreg out = np_array_sorted (pd_unique region ++ [PStr "Taiwan"]) ∧
  ∃ p : nat,
    np_where_first (allreg out) (PStr "Taiwan") = Return (Z.of_nat p) ∧
    allregaez out = py_insert (Z.of_nat p - 1) [] groups ∧
    ((1 ≤ p)%nat →
       allregaez out !! ((p - 1) `min` length groups)%nat = Some []).
Proof.
  intros Hcsv Hpt Hout groups. subst groups.
  destruct (read_gcam_file_run f gcam_landclasses start_yr end_yr scenario
              region_dict 2 area_factor log gdf landclass metric_id region
              Hcsv Hpt) as (ws & years & gm & Hgm & Hrun).
  destruct Hrun as [(e & He & Hr)|(rn & regaez & infos & Hrn & Hins & Hr)];
    rewrite Hr in Hout; simplify_eq. clear Hr.
  cbn [allreg allregaez gcam_regionnumber gcam_metric Z.eqb Pos.eqb] in *.
  split; [done|]. destruct Hins as (p & Hp & ->). exists p.
  split; [done|]. split; [done|]. intros Hp1.
  replace ((p - 1) `min` length (region_metric_lists rn gm))%nat
    with (Z.to_nat (Z.min (Z.of_nat p - 1)
                      (Z.of_nat (length (region_metric_lists rn gm)))))
    by lia.
  apply py_insert_lookup. lia.
Qed.

(** C9: whenever [read_gcam_file] returns on a projection table, the list
    of per-region metric-index lists is as long as the array of unique
    region numbers: one list per distinct region number of the rows, and
    one more (the placeholder that goes with the appended region number 30)
    at aggregation level 2. *)
Theorem region_lists_length (f : string) (gcam_landclasses : list string)
    (start_yr end_yr : Z) (scenario : string) (region_dict : gmap PyVal PyVal)
    (agg : Z) (area_factor : num) (log : list LogRecord)
    (gdf : DataFrame) landclass metric_id region out log' :
  pd_read_csv f "," = Return gdf →
  projection_table gdf start_yr end_yr landclass metric_id region →
  read_gcam_file f gcam_landclasses start_yr end_yr scenario region_dict agg
    area_factor log = (Return out, log') →
  length (allregaez out) = length (allregnumber out) ∧
  length (allregaez out)
  = (size (list_to_set (gcam_regionnumber out) : gset Z)
     + (if (agg =? 2)%Z then 1 else 0))%nat.
Proof.
  intros Hcsv Hpt Hout.
  destruct (read_gcam_file_run f gcam_landclasses start_yr end_yr scenario
              region_dict agg area_factor log gdf landclass metric_id region
              Hcsv Hpt) as (ws & years & gm & Hgm & Hrun).
  destruct Hrun as [(e & He & Hr)|(rn & regaez & infos & Hrn & Hins & Hr)];
    rewrite Hr in Hout; simplify_eq. cbn [allregaez allregnumber gcam_regionnumber].
  rewrite sort_ints_length, <- pd_unique_size.
  destruct (agg =? 2).
  - destruct Hins as (p & _ & ->).
    rewrite py_insert_length, region_metric_lists_length, length_app. cbn. lia.
  - subst regaez. rewrite region_metric_lists_length. lia.
Qed.
End Projection.

(** ** The sample inputs *)

Lemma demo_run :
  read_gcam_file (num:=Z) id Z.mul demo_csv "gcam.csv" ["forest"; "crops"]
    2000 2010 "Reference" demo_region_dict 2 1000 []
  = (Return demo_out,
     [mkLog INFO m_regions (ACount 3); mkLog INFO m_metrics (ACount 2)]).
Proof. vm_compute. reflexivity. Qed.

Lemma demo_projection_table :
  projection_table (num:=Z) id demo_gdf 2000 2010
    ["Forest"; "Crops"; "Forest"] [231; 17; 231]
    [PStr "USA"; PStr "USA"; PStr "China"].
Proof.
  split_and!; [reflexivity..|]. intros scenario. eexists. vm_compute. reflexivity.
Qed.

Lemma demo_global_projection_table :
  projection_table (num:=Z) id demo_global 2000 2010
    ["Forest"; "Crops"] [44; 12] [PInt 1; PInt 1].
Proof.
  split_and!; [reflexivity..|]. intros scenario. eexists. vm_compute. reflexivity.
Qed.

Lemma demo_region_dict_short_numeric :
  numeric_reference [PStr "USA"; PStr "USA"; PStr "China"]
    demo_region_dict_short.
Proof.
  intros k v _ Hkv. apply dict_of_pairs_lookup in Hkv; [|compute_done].
  repeat (apply elem_of_cons in Hkv as [Hkv|Hkv];
          [injection Hkv as -> ->; eexists; vm_compute; reflexivity|]).
  by apply not_elem_of_nil in Hkv.
Qed.

(** C8, on the sample file system: the empty file at every level. *)
Lemma read_alloc_empty_file_witness :
  read_alloc (num:=Z) id demo_st_size demo_csv "empty.csv" "Category" 3 ","
  = Return (Tuple2 [] (Array1 [])).
Proof. apply read_alloc_empty_file. reflexivity. Defined.

(** C10, on the sample allocation file with output level 7. *)
Lemma read_alloc_unknown_level_witness :
  read_alloc (num:=Z) id demo_st_size demo_csv "alloc.csv" "Category" 7 ","
  = Return PyNone.
Proof.
  apply (read_alloc_unknown_level id demo_st_size demo_csv "alloc.csv"
           "Category" "," 7 demo_alloc).
  - vm_compute. discriminate.
  - reflexivity.
  - eexists. vm_compute. reflexivity.
  - compute_done.
Defined.

(** C2, on the sample tables: the global table ignores the reference, and
    the two-region table fails on the reference that lacks China. *)
Lemma region_numbers_rule_witness :
  (∀ d, read_gcam_file (num:=Z) id Z.mul demo_csv "global.csv"
          ["forest"; "crops"] 2000 2010 "Reference" d 1 1000 []
        = read_gcam_file (num:=Z) id Z.mul demo_csv "global.csv"
            ["forest"; "crops"] 2000 2010 "Reference" demo_region_dict 1 1000 [])
  ∧ ∃ x log',
      read_gcam_file (num:=Z) id Z.mul demo_csv "gcam.csv" ["forest"; "crops"]
        2000 2010 "Reference" demo_region_dict_short 2 1000 []
      = (Raise (KeyError [x]), log').
Proof.
  split.
  - apply (region_numbers_rule id Z.mul demo_csv "global.csv"
             ["forest"; "crops"] 2000 2010 "Reference" demo_region_dict 1 1000
             [] demo_global _ _ _ eq_refl demo_global_projection_table).
    reflexivity.
  - destruct (region_numbers_rule id Z.mul demo_csv "gcam.csv"
                ["forest"; "crops"] 2000 2010 "Reference"
                demo_region_dict_short 2 1000 [] demo_gdf _ _ _ eq_refl
                demo_projection_table) as [_ Hlookup].
    destruct Hlookup as [_ Hnum]; [vm_compute; discriminate|].
    destruct (Hnum demo_region_dict_short_numeric) as [_ Hmiss].
    destruct Hmiss as (x & log' & _ & _ & Hrun).
    + exists (PStr "China"). split; [|reflexivity].
      apply elem_of_cons. right. apply elem_of_cons. right. by left.
    + by exists x, log'.
Defined.

(** C3, the code on the sample table of the regions USA (1) and China
    (11): the sorted region numbers are [1; 11; 30] and the sorted names
    China, Taiwan, USA, so the index taken from the names is 0.  The empty
    list stands at index 0, the slot of region 1; index 1, where the
    specification puts it, holds the metric indices of USA, and the slot of
    region 30, for which lines 266 and 274 mean the space holder, holds
    those of China. *)
Theorem placeholder_not_as_specified :
  ∃ out log',
    read_gcam_file (num:=Z) id Z.mul demo_csv "gcam.csv" ["forest"; "crops"]
      2000 2010 "Reference" demo_region_dict 2 1000 [] = (Return out, log') ∧
    allregnumber out = [1; 11; 30] ∧
    allregaez out = [[]; [1; 2]; [2]] ∧
    ¬ placeholder_as_specified out.
Proof.
  eexists demo_out, _. split; [exact demo_run|]. split; [done|]. split; [done|].
  intros (p & Hp & _ & Hl).
  assert (np_where_first (allregnumber demo_out) 30 = Return 2) as Hpos
    by reflexivity.
  rewrite Hpos in Hp. injection Hp as Hp.
  assert (p = 2%nat) as -> by lia. discriminate Hl.
Qed.

(** C9, on the sample table. *)
Lemma region_lists_length_witness :
  length (allregaez demo_out) = length (allregnumber demo_out) ∧
  length (allregaez demo_out)
  = (size (list_to_set (gcam_regionnumber demo_out) : gset Z)
     + (if (2 =? 2)%Z then 1 else 0))%nat.
Proof.
  exact (region_lists_length id Z.mul demo_csv "gcam.csv" ["forest"; "crops"]
           2000 2010 "Reference" demo_region_dict 2 1000 [] demo_gdf _ _ _
           demo_out _ eq_refl demo_projection_table demo_run).
Defined.

(** ** [read_base] *)

Section BaseLayer.
Context {num : Type}.
Variable num_of_Z : Z → num.
Variable num_of_Q : Q → num.
Variables nadd nmul ndiv : num → num → num.
Variables ncos nradians : num → num.
Variable npow : num → Z → num.
Variable nsum : list num → num.
Variable num_eqb_Z : num → Z → bool.

Local Abbreviation read_base :=
  (read_base num_of_Z num_of_Q nadd nmul ndiv ncos nradians npow nsum
     num_eqb_Z).

(** C4, the code at a base layer that lacks the requested column [urban]:
    the [KeyError] naming the absent field is caught and logged, nothing is
    raised for it, and the call ends at line 357 in an [UnboundLocalError]
    on [spat_ludata]. *)
Theorem read_base_missing_field (res : num) (log : list LogRecord) :
  read_base demo_csv (mkConfig "base.csv" "fid" 2 "Basin" "GCAM" res)
    ["forest"; "urban"] log
  = (Raise (UnboundLocalError "spat_ludata"),
     log ++ [mkLog ERROR m_missing_fields ANone;
             mkLog ERROR "{0}" (AExn (KeyError [PStr "urban"]))]).
Proof. cbv -[app]. by rewrite <- app_assoc. Qed.

Lemma getitems_missing (df : @DataFrame num) names :
  ¬ names ⊆ columns df →
  getitems df names
  = Raise (KeyError (PStr <$> filter (λ n, n ∉ columns df) names)).
Proof.
  intros Hsub. unfold getitems.
  destruct (filter (λ n, n ∉ columns df) names) as [|n l] eqn:Hf; [|done].
  destruct Hsub. intros x Hx. destruct (decide (x ∈ columns df)) as [|Hn]; [done|].
  assert (x ∈ filter (λ n, n ∉ columns df) names) as Hin
    by (by apply list_elem_of_filter).
  rewrite Hf in Hin. by apply not_elem_of_nil in Hin.
Qed.

(** On every base layer that lacks a requested land-cover column the
    [KeyError] is logged, not raised; the call goes on and ends in some later
    exception, never in a result. *)
Lemma read_base_swallows_missing_fields
    (pd_read_csv : string → string → PyResult (@DataFrame num))
    (c : Config) (spat_landclasses : list string) (log : list LogRecord)
    (df : DataFrame) :
  pd_read_csv (first_mod_file c) "," = Return df →
  ¬ spat_landclasses ⊆ columns (rename_lower df) →
  ∃ e log2,
    read_base pd_read_csv c spat_landclasses log
    = (Raise e,
       log ++ [mkLog ERROR m_missing_fields ANone;
               mkLog ERROR "{0}"
                 (AExn (KeyError
                          (PStr <$> filter (λ n, n ∉ columns (rename_lower df))
                                      spat_landclasses)))] ++ log2).
Proof.
  intros Hcsv Hmiss. unfold read_base, local, bind, lift, ret, try_except, raise.
  rewrite Hcsv, (getitems_missing _ _ Hmiss). res_simpl.
  cbn [is_KeyError]. unfold log_error, log_warning, emit.
  repeat match goal with
         | |- context [match ?x with _ => _ end] =>
             lazymatch x with
             | context [match _ with _ => _ end] => fail
             | _ => destruct x eqn:?; cbn beta iota; cbn [fst snd]
             end
         end;
    eexists _, _; rewrite <- ?app_assoc; cbn [app]; reflexivity.
Qed.
End BaseLayer.

(** * Further properties *)

(** ** Loops *)

Lemma res_foldl_app {A B} (body : B → A → PyResult B) l1 l2 acc :
  res_foldl body (l1 ++ l2) acc
  = res_bind (res_foldl body l1 acc) (res_foldl body l2).
Proof.
  revert acc. induction l1 as [|x l1 IH]; intros acc; [done|].
  cbn [app res_foldl]. destruct (body acc x); [apply IH|done].
Qed.

(** A loop over a list with an element on which the body raises, whatever
    the accumulator, raises; [P] is what all the body's exceptions share. *)
Lemma res_foldl_Raise {A B} (body : B → A → PyResult B) (P : PyExn → Prop)
    l acc :
  (∀ acc x e, body acc x = Raise e → P e) →
  (∃ x, x ∈ l ∧ ∀ acc, ∃ e, body acc x = Raise e) →
  ∃ e, res_foldl body l acc = Raise e ∧ P e.
Proof.
  intros HP. revert acc. induction l as [|y l IH]; intros acc (x & Hx & Hfail).
  - by apply not_elem_of_nil in Hx.
  - cbn [res_foldl]. destruct (body acc y) as [acc'|e] eqn:Hy.
    + apply elem_of_cons in Hx as [->|Hx].
      * destruct (Hfail acc) as [e He]. congruence.
      * apply IH. eauto.
    + exists e. split; [done|]. by eapply HP.
Qed.

Lemma enumerate_cons {A} (x : A) l :
  enumerate (x :: l) = (0%nat, x) :: ((λ p, (S p.1, p.2)) <$> enumerate l).
Proof.
  unfold enumerate. cbn [imap]. f_equal. apply list_eq. intros i.
  rewrite list_lookup_fmap, !list_lookup_imap. by destruct (l !! i).
Qed.

(** A loop whose body does not look at the index is a loop over the
    lines. *)
Lemma res_foldl_enumerate {A B} (body : B → nat * A → PyResult B)
    (step : B → A → PyResult B) (g : nat * A → nat * A) l acc :
  (∀ acc p, body acc (g p) = step acc p.2) →
  res_foldl body (g <$> enumerate l) acc = res_foldl step l acc.
Proof.
  intros Hbody. unfold enumerate.
  assert (∀ (h : nat → nat) l acc,
            res_foldl body (g <$> imap (λ idx line, (h idx, line)) l) acc
            = res_foldl step l acc) as Hgen.
  { clear l acc. intros h l. revert h.
    induction l as [|x l IH]; intros h acc; [done|].
    cbn [imap fmap list_fmap res_foldl]. rewrite Hbody. cbn [snd].
    destruct (step acc x); [|done]. cbn [res_bind].
    apply (IH (h ∘ S)). }
  apply (Hgen id).
Qed.

(** ** [to_dict] and [to_list] *)

Lemma to_dict_no_header f delim swap :
  to_dict f false delim swap = res_foldl (dict_step delim swap) f ∅.
Proof.
  unfold to_dict. rewrite <- (list_fmap_id (enumerate f)).
  by apply res_foldl_enumerate.
Qed.

Lemma to_list_no_header f delim :
  to_list f false delim = res_foldl (list_step delim) f [].
Proof.
  unfold to_list. rewrite <- (list_fmap_id (enumerate f)).
  by apply res_foldl_enumerate.
Qed.

Lemma to_dict_header_cons h f delim swap :
  to_dict (h :: f) true delim swap
  = res_bind (py_split delim (strip h)) (λ _, to_dict f false delim swap).
Proof.
  unfold to_dict at 1. rewrite enumerate_cons. cbn [res_foldl].
  unfold to_dict_body at 1. cbn [fst snd andb Nat.eqb]. res_simpl.
  destruct (py_split delim (strip h)); [|done]. cbn [res_bind].
  rewrite to_dict_no_header. by apply res_foldl_enumerate.
Qed.

Lemma to_list_header_cons h f delim :
  to_list (h :: f) true delim = to_list f false delim.
Proof.
  unfold to_list at 1. rewrite enumerate_cons. cbn [res_foldl].
  unfold to_list_body at 1. cbn [fst snd andb Nat.eqb res_bind].
  rewrite to_list_no_header. by apply res_foldl_enumerate.
Qed.

(** X1: a flagged header line is skipped whatever it holds.  [to_list]
    does not even split it; [to_dict] splits it first, so with an empty
    delimiter it fails on the header itself. *)
Theorem header_line_skipped (h : string) (f : list string) (delim : string)
    (swap : bool) :
  to_list (h :: f) true delim = to_list f false delim ∧
  (delim ≠ "" → to_dict (h :: f) true delim swap = to_dict f false delim swap) ∧
  (delim = "" →
     to_dict (h :: f) true delim swap = Raise (ValueError "empty separator")).
Proof.
  split; [apply to_list_header_cons|]. rewrite to_dict_header_cons.
  unfold py_split. split; intros Hd.
  - by rewrite decide_False.
  - by rewrite decide_True.
Qed.

(** Both readers work on the data lines. *)
Lemma to_dict_data_lines f header delim swap :
  delim ≠ "" →
  to_dict f header delim swap
  = res_foldl (dict_step delim swap) (data_lines f header) ∅.
Proof.
  intros Hd. destruct header; [|apply to_dict_no_header].
  destruct f as [|h f]; [done|]. cbn [data_lines drop].
  rewrite to_dict_header_cons, to_dict_no_header. unfold py_split.
  by rewrite decide_False.
Qed.

Lemma to_list_data_lines f header delim :
  to_list f header delim = res_foldl (list_step delim) (data_lines f header) [].
Proof.
  destruct header; [|apply to_list_no_header].
  destruct f as [|h f]; [done|]. cbn [data_lines drop].
  by rewrite to_list_header_cons, to_list_no_header.
Qed.

Lemma dict_step_inv delim swap d line d' :
  dict_step delim swap d line = Return d' →
  ∃ entry, line_entry delim swap line entry ∧ d' = <[entry.1 := entry.2]> d.
Proof.
  unfold dict_step, to_dict_body, line_entry, key_of, value_of, py_index.
  cbn [fst snd andb].
  destruct (py_split delim (strip line)) as [item|]; [|done]. res_simpl.
  destruct swap; destruct (item !! 0%nat) as [a|] eqn:H0;
    destruct (item !! 1%nat) as [b|] eqn:H1; res_simpl; try done;
    intros [= <-].
  - exists (b, a). eauto.
  - exists (a, b). eauto.
Qed.

Lemma dict_loop_inv delim swap lines d d' :
  res_foldl (dict_step delim swap) lines d = Return d' →
  ∃ entries, Forall2 (line_entry delim swap) lines entries ∧
             d' = fold_left (λ d kv, <[kv.1 := kv.2]> d) entries d.
Proof.
  revert d. induction lines as [|line lines IH]; intros d; cbn [res_foldl].
  - intros [= <-]. exists []. by split.
  - destruct (dict_step delim swap d line) as [d1|] eqn:H1; [|done].
    cbn [res_bind]. intros Hrest.
    apply dict_step_inv in H1 as (entry & He & ->).
    apply IH in Hrest as (entries & Hf & ->).
    exists (entry :: entries). split; [by constructor|done].
Qed.

(** In a dictionary built from pairs the last pair of a key decides. *)
Lemma dict_of_pairs_snoc `{Countable K} {V} (pairs : list (K * V)) kv :
  dict_of_pairs (pairs ++ [kv]) = <[kv.1 := kv.2]> (dict_of_pairs pairs).
Proof. unfold dict_of_pairs. by rewrite fold_left_app. Qed.

Lemma dict_of_pairs_last `{Countable K} {V} (pairs : list (K * V)) k v :
  dict_of_pairs pairs !! k = Some v ↔
  ∃ i : nat, pairs !! i = Some (k, v) ∧
             ∀ (j : nat) kv, (i < j)%nat → pairs !! j = Some kv → kv.1 ≠ k.
Proof.
  induction pairs as [|[k' v'] pairs IH] using rev_ind.
  - split; [done|]. intros (i & Hi & _). by rewrite lookup_nil in Hi.
  - rewrite dict_of_pairs_snoc. cbn [fst snd].
    destruct (decide (k' = k)) as [->|Hne].
    + rewrite lookup_insert_eq. split.
      * intros [= ->]. exists (length pairs). split.
        { by rewrite list_lookup_middle. }
        intros j kv Hj Hkv. apply lookup_lt_Some in Hkv.
        rewrite length_app in Hkv. cbn in Hkv. lia.
      * intros (i & Hi & Hlast).
        destruct (decide (i = length pairs)) as [->|Hi'].
        { rewrite list_lookup_middle in Hi by done. congruence. }
        destruct (Hlast (length pairs) (k, v')); [|by rewrite list_lookup_middle|done].
        apply lookup_lt_Some in Hi. rewrite length_app in Hi. cbn in Hi. lia.
    + rewrite lookup_insert_ne by done. rewrite IH. split.
      * intros (i & Hi & Hlast). exists i. split.
        { by apply lookup_app_l_Some. }
        intros j kv Hj Hkv. destruct (decide (j = length pairs)) as [->|Hj'].
        { rewrite list_lookup_middle in Hkv by done. by injection Hkv as <-. }
        apply (Hlast j); [done|]. rewrite lookup_app_l in Hkv; [done|].
        apply lookup_lt_Some in Hkv. rewrite length_app in Hkv. cbn in Hkv. lia.
      * intros (i & Hi & Hlast).
        assert (i < length pairs)%nat as Hlt.
        { destruct (decide (i = length pairs)) as [->|Hi'].
          - rewrite list_lookup_middle in Hi by done. congruence.
          - apply lookup_lt_Some in Hi. rewrite length_app in Hi. cbn in Hi. lia. }
        rewrite lookup_app_l in Hi by done. exists i. split; [done|].
        intros j kv Hj Hkv. apply (Hlast j); [done|]. by apply lookup_app_l_Some.
Qed.

(** X2: what [to_dict] returns holds, under each key, the value of the
    last data line with that key (field 0 keyed to field 1, or the reverse
    with [swap]); fields beyond the second are ignored. *)
Theorem to_dict_last_line_wins (f : list string) (header : bool)
    (delim : string) (swap : bool) (d : gmap string string) :
  to_dict f header delim swap = Return d →
  ∃ entries,
    Forall2 (line_entry delim swap) (data_lines f header) entries ∧
    ∀ k v, d !! k = Some v ↔
           ∃ i : nat, entries !! i = Some (k, v) ∧
                      ∀ (j : nat) kv, (i < j)%nat → entries !! j = Some kv →
                                      kv.1 ≠ k.
Proof.
  intros Hd. destruct (decide (delim = "")) as [->|Hne].
  - (* with an empty delimiter only the empty file is read *)
    destruct f as [|h f].
    + destruct header; injection Hd as <-; exists []; (split; [constructor|]);
        intros k v; rewrite lookup_empty; (split; [done|]);
        intros (i & Hi & _); by rewrite lookup_nil in Hi.
    + destruct header.
      * by rewrite to_dict_header_cons in Hd.
      * rewrite to_dict_no_header in Hd. cbn in Hd. done.
  - rewrite to_dict_data_lines in Hd by done.
    apply dict_loop_inv in Hd as (entries & Hf & ->). exists entries.
    split; [done|]. intros k v. apply dict_of_pairs_last.
Qed.

Lemma py_split_blank delim : delim ≠ "" → py_split delim "" = Return [""].
Proof. intros Hd. unfold py_split. by rewrite decide_False. Qed.

Lemma dict_step_Raise delim swap d line e :
  delim ≠ "" → dict_step delim swap d line = Raise e → e = IndexError.
Proof.
  intros Hd. unfold dict_step, to_dict_body, py_split, py_index.
  rewrite decide_False by done. cbn [fst snd andb]. res_simpl.
  destruct swap;
    destruct (split_go delim 0 "" (strip line) !! 0%nat);
    destruct (split_go delim 0 "" (strip line) !! 1%nat);
    res_simpl; congruence.
Qed.

Lemma dict_step_blank delim swap d line :
  delim ≠ "" → strip line = "" → dict_step delim swap d line = Raise IndexError.
Proof.
  intros Hd Hb. unfold dict_step, to_dict_body. cbn [fst snd andb].
  rewrite Hb, py_split_blank by done. by destruct swap.
Qed.

(** X3: a blank data line (white space only, as a file that ends in an
    empty line has) makes [to_dict] raise [IndexError]; with a non-empty
    delimiter [IndexError] is the only exception it raises. *)
Theorem to_dict_blank_line (f : list string) (header : bool) (delim : string)
    (swap : bool) :
  delim ≠ "" →
  (∀ e, to_dict f header delim swap = Raise e → e = IndexError) ∧
  ((∃ line, line ∈ data_lines f header ∧ strip line = "") →
     to_dict f header delim swap = Raise IndexError).
Proof.
  intros Hd. rewrite to_dict_data_lines by done. split.
  - generalize (∅ : gmap string string).
    induction (data_lines f header) as [|line lines IH]; intros d e;
      cbn [res_foldl]; [done|].
    destruct (dict_step delim swap d line) as [d1|e1] eqn:H1; cbn [res_bind].
    + apply IH.
    + intros [= <-]. by eapply dict_step_Raise.
  - intros (line & Hin & Hb).
    destruct (res_foldl_Raise (dict_step delim swap) (λ e, e = IndexError)
                (data_lines f header) ∅) as (e & He & ->); [| |done].
    + intros acc x e. by apply dict_step_Raise.
    + exists line. split; [done|]. intros acc. eexists.
      by apply dict_step_blank.
Qed.

Lemma list_step_inv delim l line l' :
  list_step delim l line = Return l' →
  ∃ n, line_number delim line n ∧ l' = l ++ [n].
Proof.
  unfold list_step, to_list_body, line_number, py_index. cbn [fst snd andb].
  destruct (py_split delim (strip line)) as [item|]; [|done]. res_simpl.
  destruct (item !! 1%nat) as [x|] eqn:Hx; [|done]. res_simpl.
  destruct (py_int x) as [n|] eqn:Hn; [|done]. res_simpl.
  intros [= <-]. exists n. split; [|done]. by exists item, x.
Qed.

Lemma list_loop_inv delim lines l l' :
  res_foldl (list_step delim) lines l = Return l' →
  ∃ ns, Forall2 (line_number delim) lines ns ∧ l' = l ++ ns.
Proof.
  revert l. induction lines as [|line lines IH]; intros l; cbn [res_foldl].
  - intros [= <-]. exists []. split; [constructor|]. by rewrite app_nil_r.
  - destruct (list_step delim l line) as [l1|] eqn:H1; [|done].
    cbn [res_bind]. intros Hrest.
    apply list_step_inv in H1 as (n & Hn & ->).
    apply IH in Hrest as (ns & Hf & ->).
    exists (n :: ns). split; [by constructor|]. by rewrite <- app_assoc.
Qed.

(** X4: what [to_list] returns has one integer per data line, in line order:
    the parse of the line's field 1. *)
Theorem to_list_per_line (f : list string) (header : bool) (delim : string)
    (l : list Z) :
  to_list f header delim = Return l →
  Forall2 (line_number delim) (data_lines f header) l ∧
  length l = (length f - (if header then 1 else 0))%nat.
Proof.
  rewrite to_list_data_lines. intros (ns & Hf & ->)%list_loop_inv.
  cbn [app]. split; [done|]. apply Forall2_length in Hf. rewrite <- Hf.
  unfold data_lines. destruct header; [rewrite length_drop|]; lia.
Qed.

(** Lines that the loop of [to_list] gets through, the loop of [to_dict]
    gets through too, and the values it stores are the literals of the
    numbers listed. *)
Lemma list_lines_dict_lines (f : list string) (header : bool) (delim : string)
    (l : list Z) :
  delim ≠ "" →
  to_list f header delim = Return l →
  ∃ d, to_dict f header delim false = Return d ∧
       ∀ k v, d !! k = Some v → ∃ n, py_int v = Return n ∧ n ∈ l.
Proof.
  intros Hd. rewrite to_list_data_lines, to_dict_data_lines by done.
  intros (ns & Hf & ->)%list_loop_inv. cbn [app].
  assert (Hgen : ∀ lines ns (d0 : gmap string string),
            Forall2 (line_number delim) lines ns →
            ∃ d, res_foldl (dict_step delim false) lines d0 = Return d ∧
                 ∀ k v, d !! k = Some v →
                        d0 !! k = Some v ∨ ∃ n, py_int v = Return n ∧ n ∈ ns).
  { clear. intros lines ns d0 Hf. revert d0.
    induction Hf as [|line n lines ns (item & x & Hs & Hx & Hn) Hf IH];
      intros d0; cbn [res_foldl].
    - exists d0. split; [done|]. by left.
    - assert (∃ k, item !! 0%nat = Some k) as [k Hk].
      { destruct item as [|k item]; [done|]. by exists k. }
      unfold dict_step at 1, to_dict_body, py_index. cbn [fst snd andb].
      rewrite Hs. res_simpl. rewrite Hk, Hx. res_simpl.
      destruct (IH (<[k:=x]> d0)) as (d & Hd & Hlook). exists d.
      split; [done|]. intros k' v Hv. destruct (Hlook _ _ Hv) as [Hin|(m & Hm & Hin)].
      + destruct (decide (k = k')) as [->|Hne].
        * rewrite lookup_insert_eq in Hin. injection Hin as <-.
          right. exists n. split; [done|]. by left.
        * rewrite lookup_insert_ne in Hin by done. by left.
      + right. exists m. split; [done|]. by right. }
  destruct (Hgen _ _ ∅ Hf) as (d & Hdict & Hlook). exists d. split; [done|].
  intros k v Hv. by destruct (Hlook _ _ Hv) as [Hin|Hin].
Qed.

(** *** Line ends *)

Lemma rev_app_app (s1 s2 acc : string) :
  String.rev_app (s1 +:+ s2) acc = String.rev_app s2 (String.rev_app s1 acc).
Proof.
  revert acc. induction s1 as [|c s1 IH]; intros acc; [done|].
  change (String.rev_app (s1 +:+ s2) (String c acc)
          = String.rev_app s2 (String.rev_app s1 (String c acc))).
  apply IH.
Qed.

Lemma lstrip_app (s t : string) :
  lstrip (s +:+ t) = if decide (lstrip s = "") then lstrip t else lstrip s +:+ t.
Proof.
  induction s as [|c s IH]; [done|].
  change (String c s +:+ t) with (String c (s +:+ t)). cbn [lstrip].
  destruct (is_space c); [done|]. by rewrite decide_False.
Qed.

Lemma append_snoc (s : string) (c d : ascii) :
  (s +:+ String c "") +:+ String d "" = s +:+ String c (String d "").
Proof.
  induction s as [|a s IH]; [done|].
  change (String a ((s +:+ String c "") +:+ String d "")
          = String a (s +:+ String c (String d ""))).
  by rewrite IH.
Qed.

Lemma strip_line_end (cur : string) :
  strip (cur +:+ String CR (String LF "")) = strip (cur +:+ String LF "").
Proof.
  unfold strip. rewrite !lstrip_app.
  destruct (decide (lstrip cur = "")); [done|].
  unfold String.rev. by rewrite !rev_app_app.
Qed.

(** The lines of a file in which a line feed follows every carriage return
    are, apart from white space at their ends, the same in the two ways of
    opening it. *)
Lemma lines_universal (s cur : string) :
  crlf_only s →
  Forall2 (λ a b, strip a = strip b)
    (lines_from cur s) (lines_from cur (universal_newlines s)).
Proof.
  remember (String.length s) as n eqn:Hn. revert s cur Hn.
  induction n as [n IH] using lt_wf_ind. intros s cur -> Hs.
  destruct s as [|c s]; cbn [lines_from universal_newlines].
  { destruct (decide (cur = "")); by repeat constructor. }
  destruct Hs as [Hcr Hs]. destruct (decide (c = CR)) as [->|Hc].
  - destruct Hcr as [s' ->]; [done|]. destruct Hs as [_ Hs].
    cbn [lines_from].
    rewrite (decide_False (P:=CR = LF)) by done.
    rewrite !(decide_True (P:=LF = LF)) by done.
    constructor.
    + rewrite append_snoc. apply strip_line_end.
    + eapply IH; [|done..]. cbn. lia.
  - cbn [lines_from]. destruct (decide (c = LF)).
    + constructor; [done|]. eapply IH; [|done..]. cbn. lia.
    + eapply IH; [|done..]. cbn. lia.
Qed.

(** Both loops strip the line before anything else. *)
Lemma list_step_strip delim l line1 line2 :
  strip line1 = strip line2 → list_step delim l line1 = list_step delim l line2.
Proof.
  intros Hs. unfold list_step, to_list_body. cbn [fst snd andb]. by rewrite Hs.
Qed.

Lemma to_list_strip f1 f2 header delim :
  Forall2 (λ a b, strip a = strip b) f1 f2 →
  to_list f1 header delim = to_list f2 header delim.
Proof.
  intros Hf. rewrite !to_list_data_lines.
  assert (Forall2 (λ a b, strip a = strip b)
            (data_lines f1 header) (data_lines f2 header)) as Hd.
  { unfold data_lines. destruct header; [|done]. by apply Forall2_drop. }
  generalize (@nil Z). induction Hd as [|a b la lb Hab _ IH]; intros l; [done|].
  cbn [res_foldl]. rewrite (list_step_strip _ _ a b Hab).
  destruct (list_step delim l b); [apply IH|done].
Qed.

(** X5: a file that [to_list] reads, and in which every carriage return is
    followed by a line feed, is read by [to_dict] too (same header flag and
    delimiter, no swap), and every value of the dictionary is the literal of
    a member of the list: such a reference is numeric.  The two functions
    open the file in different modes, whose lines differ on such a file only
    in the white space that both strip. *)
Theorem to_list_to_dict (bytes : string) (header : bool) (delim : string)
    (l : list Z) :
  delim ≠ "" →
  crlf_only bytes →
  to_list (open_rU bytes) header delim = Return l →
  ∃ d, to_dict (open_r bytes) header delim false = Return d ∧
       ∀ k v, d !! k = Some v → ∃ n, py_int v = Return n ∧ n ∈ l.
Proof.
  intros Hd Hcr Hl. apply list_lines_dict_lines; [done|].
  rewrite <- Hl. apply to_list_strip. by apply lines_universal.
Qed.

(** ** [read_alloc], continued *)

Section Allocation2.
Context {num : Type}.
Variable num_of_Z : Z → num.
Variable os_stat_st_size : string → Z.
Variable pd_read_csv : string → string → PyResult (@DataFrame num).
Implicit Types (df : @DataFrame num).

Local Abbreviation read_alloc := (read_alloc num_of_Z os_stat_st_size pd_read_csv).

Lemma getitem_elem_of df name (s : Series) :
  getitem df name = Return s → (name, s) ∈ df.
Proof.
  unfold getitem. destruct (labelled df name) as [|s' [|s'' l]] eqn:Hl; [done| |done].
  intros [= <-]. apply elem_of_labelled. rewrite Hl. by left.
Qed.

Lemma getitem_present df name x :
  getitem df name = Return x → name ∈ columns df.
Proof.
  intros Hx. destruct (decide (name ∈ columns df)) as [|Hn]; [done|].
  apply labelled_nil in Hn. unfold getitem in Hx. by rewrite Hn in Hx.
Qed.

Lemma getitems_inv df names ss :
  getitems df names = Return ss →
  ss = names ≫= labelled df ∧ Forall (λ s, ∃ n, (n, s) ∈ df) ss.
Proof.
  unfold getitems. destruct (filter (λ n, n ∉ columns df) names); [|done].
  intros [= <-]. split; [done|]. apply Forall_forall. intros s Hs.
  apply list_elem_of_bind in Hs as (n & Hs & _). exists n.
  by apply elem_of_labelled.
Qed.

(** How many columns carry a label. *)
Lemma labelled_length df name :
  length (labelled df name) = length (filter (λ m, m = name) (columns df)).
Proof.
  induction df as [|[n s] df IH]; [done|].
  rewrite labelled_cons. cbn [columns fmap list_fmap fst]. cbn [filter list_filter].
  destruct (decide (n = name)); cbn [length]; by rewrite IH.
Qed.

Lemma bind_length {A B} (g : A → list B) (l : list A) :
  length (l ≫= g) = sum_list ((λ x, length (g x)) <$> l).
Proof.
  induction l as [|x l IH]; [done|].
  cbn [mbind list_bind fmap list_fmap sum_list]. rewrite length_app. by rewrite <- IH.
Qed.

Lemma sum_list_ones {A} (g : A → nat) (l : list A) :
  (∀ x, x ∈ l → g x = 1%nat) → sum_list (g <$> l) = length l.
Proof.
  induction l as [|x l IH]; intros Hg; [done|].
  cbn [fmap list_fmap sum_list length]. rewrite Hg by (by left).
  rewrite IH; [done|]. intros y Hy. apply Hg. by right.
Qed.

Lemma NoDup_count `{EqDecision A} (l : list A) (n : A) :
  NoDup l → n ∈ l → length (filter (λ m, m = n) l) = 1%nat.
Proof.
  induction 1 as [|x l Hx Hnd IH]; intros Hn; [by apply not_elem_of_nil in Hn|].
  cbn [filter list_filter]. destruct (decide (x = n)) as [->|Hne].
  - cbn [length]. f_equal. apply length_zero_iff_nil.
    destruct (filter (λ m, m = n) l) as [|y l'] eqn:Hf; [done|].
    assert (y ∈ filter (λ m, m = n) l) as Hy by (rewrite Hf; by left).
    apply list_elem_of_filter in Hy as [-> Hy]. done.
  - apply IH. apply elem_of_cons in Hn as [->|Hn]; [done|done].
Qed.

Lemma nrows_rename_lower df : nrows (rename_lower df) = nrows df.
Proof. by destruct df as [|[n s] df]. Qed.

Lemma aligned_rename_lower df : aligned df → aligned (rename_lower df).
Proof.
  unfold aligned. rewrite nrows_rename_lower. unfold rename_lower.
  rewrite Forall_fmap. intros Hal. eapply Forall_impl; [exact Hal|].
  by intros [n s].
Qed.

Lemma rows_of_shape {A} (n : nat) (cols : list (list A)) :
  Forall (λ c, length c = n) cols →
  length (rows_of n cols) = n ∧
  Forall (λ r, length r = length cols) (rows_of n cols).
Proof.
  intros Hc. unfold rows_of. rewrite length_fmap, length_seq. split; [done|].
  apply Forall_fmap, Forall_forall. intros i Hi%elem_of_seq. cbn.
  clear -Hc Hi. induction Hc as [|c cols Hlen _ IH]; [done|].
  cbn [omap list_omap]. destruct (lookup_lt_is_Some_2 c i) as [x Hx]; [lia|].
  rewrite Hx. cbn. by rewrite IH.
Qed.

Lemma cells_of_length (s : @Series num) : length (cells_of s) = series_len s.
Proof. destruct s; cbn; by rewrite length_fmap. Qed.

Lemma as_matrix_shape (n : nat) (ss : list (@Series num)) :
  Forall (λ s, series_len s = n) ss →
  ∃ rows, as_matrix num_of_Z n ss = Array2 rows ∧ length rows = n ∧
          Forall (λ r, length r = length ss) rows.
Proof.
  intros Hlen. unfold as_matrix. eexists. split; [reflexivity|].
  cbn zeta.
  match goal with
  | |- context [rows_of n ?cs] =>
      assert (Forall (λ c, length c = n) cs ∧ length cs = length ss)
        as [Hcs Hl]
  end.
  { destruct (existsb is_NumS ss && negb (existsb is_StrS ss));
      rewrite ?length_fmap; (split; [|done]);
      rewrite ?Forall_fmap; (eapply Forall_impl; [exact Hlen|]);
      intros s Hs; cbn; by rewrite ?length_fmap, cells_of_length. }
  destruct (rows_of_shape _ _ Hcs) as [Hrows Hrow]. split; [done|].
  by rewrite <- Hl.
Qed.

(** X6: on a non-empty file whose frame has no column of the target name
    (compared in lower case) [read_alloc] raises the [KeyError] of that
    name; on a target column that is not text, and on a target name that
    several headers share, so that it selects a frame, the [AttributeError]
    of the [.str] accessor, at every output level. *)
Theorem read_alloc_bad_target (f lc_col delim : string) (output_level : Z)
    (df : DataFrame) :
  os_stat_st_size f ≠ 0 →
  pd_read_csv f delim = Return df →
  (lower lc_col ∉ columns (rename_lower df) →
     read_alloc f lc_col output_level delim
     = Raise (KeyError [PStr (lower lc_col)])) ∧
  (∀ s : Series, getitem (rename_lower df) (lower lc_col) = Return s →
        is_StrS s = false →
        read_alloc f lc_col output_level delim = Raise (AttributeError "str")) ∧
  (∀ cols, getitem (rename_lower df) (lower lc_col) = Return (Frame cols) →
        read_alloc f lc_col output_level delim = Raise (AttributeError "str")).
Proof.
  intros Hsize Hdf. unfold read_alloc. apply Z.eqb_neq in Hsize.
  rewrite Hsize, Hdf. cbn [negb]. res_simpl. split_and!.
  - intros Hcol.
    destruct (getitem (rename_lower df) (lower lc_col)) as [s|e] eqn:Hg.
    + by apply getitem_present in Hg.
    + by apply getitem_Raise in Hg as [_ ->].
  - intros s -> Hs. by destruct s.
  - by intros cols ->.
Qed.

(** X7: on an allocation table the three output levels return the same
    array and class lists: the final classes are the lower-cased headers
    other than the target column, in header order; the target classes are
    the lower-cased target column; the array has one row per target class,
    and a row has, for every final class, one cell for each header that
    gives that class; so when the final classes are distinct, one cell per
    final class. *)
Theorem read_alloc_shape (f lc_col delim : string) (df : DataFrame)
    (targets : list string) :
  os_stat_st_size f ≠ 0 →
  pd_read_csv f delim = Return df →
  aligned df →
  getitem (rename_lower df) (lower lc_col) = Return (StrS targets) →
  let fcs := filter (λ i, i ≠ lower lc_col) (lower <$> columns df) in
  let tcs := lower <$> targets in
  ∃ rows,
    read_alloc f lc_col 3 delim = Return (Tuple3 fcs tcs (Array2 rows)) ∧
    read_alloc f lc_col 2 delim = Return (Tuple2 tcs (Array2 rows)) ∧
    read_alloc f lc_col 1 delim = Return (Single (Array2 rows)) ∧
    length rows = length tcs ∧
    Forall (λ r, length r
                 = sum_list ((λ n, length (filter (λ m, m = n) fcs)) <$> fcs))
      rows ∧
    (NoDup fcs → Forall (λ r, length r = length fcs) rows).
Proof.
  intros Hsize Hdf Hal Htc fcs tcs.
  assert (columns (rename_lower df) = lower <$> columns df) as Hcols.
  { unfold columns, rename_lower. rewrite <- !list_fmap_compose. done. }
  assert (getitems (rename_lower df) fcs
          = Return (fcs ≫= labelled (rename_lower df))) as Hss.
  { apply getitems_present. intros x Hx. rewrite Hcols.
    by apply list_elem_of_filter in Hx as [_ Hx]. }
  pose proof (getitems_inv _ _ _ Hss) as [_ Hin].
  apply aligned_rename_lower in Hal. unfold aligned in Hal.
  rewrite Forall_forall in Hal.
  assert (Forall (λ s, series_len s = nrows (rename_lower df))
            (fcs ≫= labelled (rename_lower df))) as Hlen.
  { eapply Forall_impl; [exact Hin|]. intros s [n Hn]. apply (Hal _ Hn). }
  destruct (as_matrix_shape _ _ Hlen) as (rows & Hm & Hrows & Hrow).
  assert (length (fcs ≫= labelled (rename_lower df))
          = sum_list ((λ n, length (filter (λ m, m = n) fcs)) <$> fcs))
    as Hwidth.
  { rewrite bind_length. f_equal. apply list_fmap_ext. intros i n Hn.
    apply list_elem_of_lookup_2, list_elem_of_filter in Hn as [Hn _].
    rewrite labelled_length, Hcols. subst fcs.
    rewrite list_filter_filter. f_equal. apply list_filter_iff.
    intros m. split; [|by intros []]. intros ->. by split. }
  exists rows.
  unfold read_alloc. apply Z.eqb_neq in Hsize. rewrite Hsize, Hdf.
  cbn [negb]. res_simpl. rewrite Htc. cbn [str_lower_tolist]. res_simpl.
  rewrite Hcols. fold fcs. rewrite Hss. res_simpl. rewrite Hm.
  split_and!; [done..| | |].
  - rewrite Hrows. subst tcs. rewrite length_fmap.
    apply getitem_elem_of in Htc. symmetry. apply (Hal _ Htc).
  - eapply Forall_impl; [exact Hrow|]. intros r ->. exact Hwidth.
  - intros Hnd. eapply Forall_impl; [exact Hrow|]. intros r ->.
    rewrite Hwidth. apply sum_list_ones. intros n Hn. by apply NoDup_count.
Qed.
End Allocation2.

(** ** The order of strings and [_check_constraints], continued *)

Lemma ascii_compare_Eq a b c :
  Ascii.compare a b = Eq → Ascii.compare a c = Ascii.compare b c.
Proof. intros ->%Ascii.compare_eq_iff. done. Qed.

Lemma string_compare_trans a b c :
  String.compare a b ≠ Gt → String.compare b c ≠ Gt → String.compare a c ≠ Gt.
Proof.
  revert b c. induction a as [|x a IH]; intros [|y b] [|z c]; cbn; try done.
  destruct (Ascii.compare x y) eqn:Hxy; [| |done].
  - rewrite (ascii_compare_Eq _ _ z Hxy).
    destruct (Ascii.compare y z); [apply IH|done..].
  - destruct (Ascii.compare y z) eqn:Hyz; [| |done].
    + apply Ascii.compare_eq_iff in Hyz as ->. by rewrite Hxy.
    + intros _ _. unfold Ascii.compare in *.
      rewrite N.compare_lt_iff in Hxy, Hyz.
      assert ((N_of_ascii x ?= N_of_ascii z)%N = Lt) as ->; [|done].
      apply N.compare_lt_iff. lia.
Qed.

Global Instance str_le_total : Total str_le.
Proof.
  intros a b. unfold str_le.
  destruct (String.leb_total a b) as [->| ->]; [by left|by right].
Qed.

Global Instance str_le_trans : Transitive str_le.
Proof.
  intros a b c. unfold str_le, String.leb.
  pose proof (string_compare_trans a b c) as Ht.
  destruct (String.compare a b), (String.compare b c),
    (String.compare a c); cbn; try done; intros _ _; by apply Ht.
Qed.

Global Instance str_le_antisym : AntiSymm (=) str_le.
Proof.
  intros a b Hab Hba. apply String.leb_antisym; by apply Is_true_true.
Qed.

Lemma np_unique_strs_sorted l :
  StronglySorted str_le (np_unique_strs l) ∧ NoDup (np_unique_strs l).
Proof.
  split; [|apply NoDup_pd_unique].
  apply StronglySorted_pd_unique, StronglySorted_merge_sort; apply _.
Qed.

(** [np.unique] of a list of strings depends on the set of its values
    only. *)
Lemma np_unique_strs_ext l1 l2 :
  (∀ x, x ∈ l1 ↔ x ∈ l2) → np_unique_strs l1 = np_unique_strs l2.
Proof.
  intros Hl. apply (StronglySorted_unique str_le);
    [apply np_unique_strs_sorted..|].
  apply NoDup_Permutation; [apply np_unique_strs_sorted..|].
  intros x. by rewrite !elem_of_np_unique_strs.
Qed.

Lemma np_setdiff1d_ext a1 a2 b1 b2 :
  (∀ x, x ∈ a1 ↔ x ∈ a2) → (∀ x, x ∈ b1 ↔ x ∈ b2) →
  np_setdiff1d a1 b1 = np_setdiff1d a2 b2.
Proof.
  intros Ha Hb. unfold np_setdiff1d.
  rewrite (np_unique_strs_ext a1 a2 Ha), (np_unique_strs_ext b1 b2 Hb). done.
Qed.

Lemma np_setdiff1d_sorted a b :
  StronglySorted str_le (np_setdiff1d a b) ∧ NoDup (np_setdiff1d a b).
Proof.
  unfold np_setdiff1d. split.
  - apply StronglySorted_filter, np_unique_strs_sorted.
  - apply NoDup_filter, np_unique_strs_sorted.
Qed.

(** X8: what [_check_constraints] logs depends only on the two sets of
    lower-cased names: the order of the entries, their repetition and
    their letter case change nothing. *)
Theorem check_constraints_sets (allocate1 allocate2 actual1 actual2 : list string)
    (log : list LogRecord) :
  (∀ x, x ∈ lower <$> allocate1 ↔ x ∈ lower <$> allocate2) →
  (∀ x, x ∈ lower <$> actual1 ↔ x ∈ lower <$> actual2) →
  _check_constraints allocate1 actual1 log
  = _check_constraints allocate2 actual2 log.
Proof.
  intros Ha Hb. unfold _check_constraints.
  by rewrite (np_setdiff1d_ext _ _ _ _ Ha Hb), (np_setdiff1d_ext _ _ _ _ Hb Ha).
Qed.

(** X9: every record that [_check_constraints] logs carries a list of
    lower-cased names in ascending order without repeats.  The warning
    worded "in allocation file but not in projected model data" lists the
    classes of [actual] (the projected data) that are not among [allocate],
    and the warning worded "in projected model but not in allocation file"
    lists the classes of [allocate] that are not among [actual]. *)
Theorem check_constraints_payload (allocate actual : list string)
    (log : list LogRecord) :
  let alloc := lower <$> allocate in
  let act := lower <$> actual in
  ∃ ws,
    _check_constraints allocate actual log = (Return tt, log ++ ws) ∧
    ∀ r, r ∈ ws →
      ∃ names,
        argument r = AStrings names ∧
        StronglySorted str_le names ∧ NoDup names ∧
        ((message r = m_alloc_extra ∧ ∀ x, x ∈ names ↔ x ∈ act ∧ x ∉ alloc) ∨
         (message r = m_act_extra ∧ ∀ x, x ∈ names ↔ x ∈ alloc ∧ x ∉ act)).
Proof.
  intros alloc act. unfold _check_constraints. fold alloc act.
  pose proof (np_setdiff1d_sorted act alloc) as [Hs1 Hn1].
  pose proof (np_setdiff1d_sorted alloc act) as [Hs2 Hn2].
  pose proof (elem_of_np_setdiff1d act alloc) as He1.
  pose proof (elem_of_np_setdiff1d alloc act) as He2.
  set (r1 := mkLog WARNING m_alloc_extra (AStrings (np_setdiff1d act alloc))).
  set (r2 := mkLog WARNING m_act_extra (AStrings (np_setdiff1d alloc act))).
  assert (H1 : ∃ names, argument r1 = AStrings names ∧
             StronglySorted str_le names ∧ NoDup names ∧
             ((message r1 = m_alloc_extra ∧
               ∀ x, x ∈ names ↔ x ∈ act ∧ x ∉ alloc) ∨
              (message r1 = m_act_extra ∧
               ∀ x, x ∈ names ↔ x ∈ alloc ∧ x ∉ act))).
  { eexists. split; [reflexivity|]. split_and!; [done..|]. by left. }
  assert (H2 : ∃ names, argument r2 = AStrings names ∧
             StronglySorted str_le names ∧ NoDup names ∧
             ((message r2 = m_alloc_extra ∧
               ∀ x, x ∈ names ↔ x ∈ act ∧ x ∉ alloc) ∨
              (message r2 = m_act_extra ∧
               ∀ x, x ∈ names ↔ x ∈ alloc ∧ x ∉ act))).
  { eexists. split; [reflexivity|]. split_and!; [done..|]. by right. }
  destruct (length (np_setdiff1d act alloc)), (length (np_setdiff1d alloc act));
    cbn [Nat.ltb Nat.leb Nat.eqb andb].
  - exists []. rewrite app_nil_r. split; [done|].
    intros r Hr. by apply not_elem_of_nil in Hr.
  - exists [r2]. split; [done|]. by intros r ->%list_elem_of_singleton.
  - exists [r1]. split; [done|]. by intros r ->%list_elem_of_singleton.
  - exists [r1; r2]. split.
    + unfold bind, log_warning, emit. by rewrite <- app_assoc.
    + intros r [->|[->|Hr]%elem_of_cons]%elem_of_cons; [done..|].
      by apply not_elem_of_nil in Hr.
Qed.

(** ** [_get_steps] and [read_gcam_file], continued *)

Section Projection2.
Context {num : Type}.
Variable num_of_Z : Z → num.
Variable nmul : num → num → num.
Variable pd_read_csv : string → string → PyResult (@DataFrame num).
Implicit Types (df gdf : @DataFrame num).

Local Abbreviation read_gcam_file := (read_gcam_file num_of_Z nmul pd_read_csv).
Local Abbreviation projection_table := (projection_table num_of_Z).
Local Abbreviation year_data := (year_data num_of_Z).
Local Abbreviation num_matrix := (num_matrix num_of_Z).
Local Abbreviation nums_of := (nums_of num_of_Z).

Lemma get_steps_eq df start_step end_step :
  _get_steps df start_step end_step
  = Return (select_time_steps (columns df) start_step end_step).
Proof. unfold _get_steps. apply (get_steps_fold _ _ _ []). Qed.

(** X10: narrowing the range of years filters the selection: the steps of
    a range inside another are the steps of the wider range that lie in
    the narrower one, in the same order. *)
Theorem get_steps_narrow df (start_step end_step start' end' : Z) :
  start_step ≤ start' → end' ≤ end_step →
  _get_steps df start' end'
  = filter (λ y, start' ≤ y ≤ end') <$> _get_steps df start_step end_step.
Proof.
  intros Hs He. rewrite !get_steps_eq. res_simpl. f_equal.
  unfold select_time_steps. rewrite list_filter_filter.
  apply list_filter_iff. intros y. lia.
Qed.

(** *** The scenario *)

Lemma columns_setitem df name s :
  ∀ x, x ∈ columns (setitem df name s) ↔ x ∈ columns df ∨ x = name.
Proof.
  intros x. unfold setitem. destruct (decide (name ∈ columns df)) as [Hin|Hin].
  - assert (columns ((λ c : string * Series,
                        if decide (c.1 = name) then (name, s) else c) <$> df)
            = columns df) as ->.
    { unfold columns. rewrite <- list_fmap_compose. apply list_fmap_ext.
      intros i [n s'] _. cbn. by destruct (decide (n = name)) as [->|]. }
    split; [by left|]. by intros [?| ->].
  - unfold columns. rewrite fmap_app, elem_of_app. cbn.
    by rewrite list_elem_of_singleton.
Qed.

Lemma labelled_blank df name :
  labelled (blank_frame df) name = map blank_text (labelled df name).
Proof.
  induction df as [|[n s] df IH]; [done|].
  change (blank_frame ((n, s) :: df)) with ((n, blank_text s) :: blank_frame df).
  rewrite !labelled_cons. destruct (decide (n = name)); cbn [map]; by rewrite IH.
Qed.

Lemma bind_labelled_blank df (names : list string) :
  names ≫= labelled (blank_frame df) = map blank_text (names ≫= labelled df).
Proof.
  induction names as [|n names IH]; [done|].
  by rewrite !bind_cons, map_app, labelled_blank, IH.
Qed.

Lemma nums_of_blank (s : @Series num) : nums_of (blank_text s) = nums_of s.
Proof. by destruct s. Qed.

Lemma res_map_nums_of_blank (ss : list (@Series num)) :
  res_map nums_of (map blank_text ss) = res_map nums_of ss.
Proof.
  induction ss as [|s ss IH]; [done|]. cbn [map res_map].
  by rewrite nums_of_blank, IH.
Qed.

Lemma columns_blank df : columns (blank_frame df) = columns df.
Proof.
  unfold columns, blank_frame. induction df as [|[n s] df IH]; [done|].
  cbn. by f_equal.
Qed.

Lemma nrows_blank df : nrows (blank_frame df) = nrows df.
Proof.
  destruct df as [|[n s] df]; [done|]. destruct s; cbn; [done| |done].
  apply length_replicate.
Qed.

(** The years and their matrix do not read text. *)
Lemma year_data_blank df start_yr end_yr :
  year_data (blank_frame df) start_yr end_yr
  = year_data df start_yr end_yr.
Proof.
  unfold year_data. rewrite !get_steps_eq, columns_blank, nrows_blank.
  res_simpl. unfold getitems. rewrite columns_blank.
  destruct (filter _ _); [|done]. res_simpl.
  unfold num_matrix. by rewrite bind_labelled_blank, res_map_nums_of_blank.
Qed.

Lemma with_scenario_blank df (scenario1 scenario2 : string) :
  blank_frame (with_scenario df scenario1)
  = blank_frame (with_scenario df scenario2).
Proof.
  unfold with_scenario, setitem, blank_frame.
  destruct (decide ("scenario" ∈ columns df)) as [_|_].
  - generalize (nrows df) as n. intros n.
    induction df as [|[m s] df IH]; [done|]. cbn [fmap list_fmap map fst snd].
    rewrite IH. f_equal. destruct (decide (m = "scenario")); [|done].
    cbn. by rewrite !length_replicate.
  - rewrite !map_app. f_equal. cbn. by rewrite !length_replicate.
Qed.

(** X11: the scenario name has no effect on what [read_gcam_file] returns,
    raises or logs: the column it fills is never read. *)
Theorem scenario_is_ignored (f : string) (gcam_landclasses : list string)
    (start_yr end_yr : Z) (scenario1 scenario2 : string)
    (region_dict : gmap PyVal PyVal) (agg : Z) (area_factor : num)
    (log : list LogRecord) :
  read_gcam_file f gcam_landclasses start_yr end_yr scenario1 region_dict agg
    area_factor log
  = read_gcam_file f gcam_landclasses start_yr end_yr scenario2 region_dict agg
      area_factor log.
Proof.
  unfold read_gcam_file, bind, lift.
  destruct (pd_read_csv f ",") as [gdf|]; [|done].
  assert (year_data (with_scenario gdf scenario1) start_yr end_yr
          = year_data (with_scenario gdf scenario2) start_yr end_yr) as ->.
  { rewrite <- (year_data_blank (with_scenario gdf scenario1)),
      <- (year_data_blank (with_scenario gdf scenario2)).
    by rewrite (with_scenario_blank gdf scenario1 scenario2). }
  rewrite !getitem_with_scenario by done.
  by rewrite !nrows_with_scenario.
Qed.

(** *** Year labels *)

(** X12: a header label that parses to a year of the range but is not the
    year's decimal ([' 2005'], ['+2005'], ['02005']) is selected and then
    looked up under the decimal: unless that label is a column too, the
    call raises a [KeyError] that names it, after the constraint check. *)
Theorem noncanonical_year_label (f : string) (gcam_landclasses : list string)
    (start_yr end_yr : Z) (scenario : string)
    (region_dict : gmap PyVal PyVal) (agg : Z) (area_factor : num)
    (log : list LogRecord) (gdf : DataFrame) (landclass : list string)
    (label : string) (y : Z) :
  pd_read_csv f "," = Return gdf →
  getitem gdf "landclass" = Return (StrS landclass) →
  label ∈ columns gdf →
  py_int label = Return y →
  start_yr ≤ y ≤ end_yr →
  py_str y ∉ "scenario" :: columns gdf →
  ∃ missing ws,
    PStr (py_str y) ∈ missing ∧
    read_gcam_file f gcam_landclasses start_yr end_yr scenario region_dict agg
      area_factor log = (Raise (KeyError missing), log ++ ws).
Proof.
  intros Hcsv Hlc Hlabel Hint Hy Hnew.
  destruct (check_constraints_returns gcam_landclasses landclass log)
    as (ws & Hws).
  set (gdf' := with_scenario gdf scenario).
  set (names := py_str <$> select_time_steps (columns gdf') start_yr end_yr).
  assert (py_str y ∈ names) as Hin.
  { apply list_elem_of_fmap. exists y. split; [done|].
    apply select_time_steps_elem. split; [done|]. exists label.
    split; [|done]. apply columns_setitem. by left. }
  assert (py_str y ∉ columns gdf') as Hout.
  { intros [Hc|Hs]%columns_setitem; apply Hnew; [by right|rewrite Hs; by left]. }
  assert (¬ names ⊆ columns gdf') as Hmiss by (intros Hsub; by apply Hout, Hsub).
  exists (PStr <$> filter (λ n, n ∉ columns gdf') names), ws. split.
  - apply list_elem_of_fmap. exists (py_str y). split; [done|].
    by apply list_elem_of_filter.
  - unfold read_gcam_file, bind, lift. rewrite Hcsv, Hlc. res_simpl.
    cbn [tolist_strs]. rewrite Hws. unfold year_data.
    rewrite get_steps_eq. res_simpl. fold gdf' names.
    by rewrite (getitems_missing _ _ Hmiss).
Qed.

(** *** The returned indices *)

Lemma StronglySorted_seq_Z (start n : nat) :
  StronglySorted Z.le (Z.of_nat <$> seq start n).
Proof.
  revert start. induction n as [|n IH]; intros start; [constructor|].
  cbn [seq fmap list_fmap]. constructor; [apply IH|].
  apply Forall_fmap, Forall_forall. intros i Hi%elem_of_seq. cbn. lia.
Qed.

(** Two ascending lists without repeats that hold the same integers are
    equal. *)
Lemma sorted_ints_ext (l1 l2 : list Z) :
  StronglySorted Z.le l1 → NoDup l1 → StronglySorted Z.le l2 → NoDup l2 →
  (∀ x, x ∈ l1 ↔ x ∈ l2) → l1 = l2.
Proof.
  intros Hs1 Hn1 Hs2 Hn2 Hel. apply (StronglySorted_unique Z.le); [done..|].
  by apply NoDup_Permutation.
Qed.

Lemma np_unique_ints_sorted l :
  StronglySorted Z.le (np_unique_ints l) ∧ NoDup (np_unique_ints l).
Proof.
  split; [|apply NoDup_pd_unique].
  apply StronglySorted_pd_unique, StronglySorted_merge_sort; apply _.
Qed.

Lemma sort_ints_pd_unique l : sort_ints (pd_unique l) = np_unique_ints l.
Proof.
  apply sorted_ints_ext.
  - apply StronglySorted_merge_sort; apply _.
  - unfold sort_ints. rewrite merge_sort_Permutation. apply NoDup_pd_unique.
  - apply np_unique_ints_sorted.
  - apply np_unique_ints_sorted.
  - intros x. by rewrite elem_of_sort_ints, elem_of_pd_unique,
      elem_of_np_unique_ints.
Qed.

Lemma sequential_metric_range metric_id gm :
  sequential_metric metric_id = Return gm →
  ∀ k, k ∈ gm ↔ 1 ≤ k ≤ Z.of_nat (length (sorted_ids metric_id)).
Proof.
  intros Hgm. destruct (sequential_metric_Return metric_id) as (l & Hl & Hf).
  assert (l = gm) as -> by congruence. intros k. split.
  - intros [i Hi]%list_elem_of_lookup.
    destruct (Forall2_lookup_r _ _ _ _ _ Hf Hi) as (x & _ & Hx).
    apply metric_lookup_spec in Hx as (j & Hj & ->).
    apply lookup_lt_Some in Hj. lia.
  - intros Hk.
    destruct (lookup_lt_is_Some_2 (sorted_ids metric_id) (Z.to_nat (k - 1)))
      as [x Hx]; [lia|].
    assert (x ∈ metric_id) as [i Hi]%list_elem_of_lookup
      by (apply elem_of_sorted_ids; by eapply list_elem_of_lookup_2).
    destruct (Forall2_lookup_l _ _ _ _ _ Hf Hi) as (k' & Hk' & Hlu).
    apply metric_lookup_spec in Hlu as (j & Hj & ->).
    assert (j = Z.to_nat (k - 1)) as ->
      by (eapply NoDup_lookup; [apply sorted_ids_NoDup|done..]).
    replace k with (Z.of_nat (Z.to_nat (k - 1)) + 1) by lia.
    by eapply list_elem_of_lookup_2.
Qed.

(** X13: the array of unique metric indices that [read_gcam_file] returns
    is always [1, 2, ..., N], for [N] the number of distinct raw metric
    identifiers of the table: the sequential indices leave no gap. *)
Theorem allmetric_is_dense (f : string) (gcam_landclasses : list string)
    (start_yr end_yr : Z) (scenario : string) (region_dict : gmap PyVal PyVal)
    (agg : Z) (area_factor : num) (log : list LogRecord)
    (gdf : DataFrame) landclass metric_id region out log' :
  pd_read_csv f "," = Return gdf →
  projection_table gdf start_yr end_yr landclass metric_id region →
  read_gcam_file f gcam_landclasses start_yr end_yr scenario region_dict agg
    area_factor log = (Return out, log') →
  allmetric out
  = Z.of_nat <$> seq 1 (size (list_to_set metric_id : gset Z)).
Proof.
  intros Hcsv Hpt Hout.
  destruct (read_gcam_file_run num_of_Z nmul pd_read_csv f gcam_landclasses
              start_yr end_yr scenario region_dict agg area_factor log gdf
              landclass metric_id region Hcsv Hpt)
    as (ws & years & gm & Hgm & Hrun).
  destruct Hrun as [(e & He & Hr)|(rn & regaez & infos & Hrn & Hins & Hr)];
    rewrite Hr in Hout; simplify_eq. cbn [allmetric].
  rewrite <- sorted_ids_length. apply sorted_ints_ext.
  - apply np_unique_ints_sorted.
  - apply np_unique_ints_sorted.
  - apply StronglySorted_seq_Z.
  - apply NoDup_fmap; [apply Nat2Z.inj'|apply NoDup_seq].
  - intros k. rewrite elem_of_np_unique_ints, (sequential_metric_range _ _ Hgm).
    rewrite list_elem_of_fmap. split.
    + intros Hk. exists (Z.to_nat k). split; [lia|]. apply elem_of_seq. lia.
    + intros (i & -> & Hi%elem_of_seq). lia.
Qed.

(** X14: at every aggregation level other than 2 the per-region lists line
    up with the sorted region numbers: the list at the position of a region
    number holds, ascending and without repeats, exactly the metric indices
    of the rows with that region number. *)
Theorem region_lists_aligned (f : string) (gcam_landclasses : list string)
    (start_yr end_yr : Z) (scenario : string) (region_dict : gmap PyVal PyVal)
    (agg : Z) (area_factor : num) (log : list LogRecord)
    (gdf : DataFrame) landclass metric_id region out log' :
  pd_read_csv f "," = Return gdf →
  projection_table gdf start_yr end_yr landclass metric_id region →
  agg ≠ 2 →
  read_gcam_file f gcam_landclasses start_yr end_yr scenario region_dict agg
    area_factor log = (Return out, log') →
  Forall2
    (λ r l, StronglySorted Z.le l ∧ NoDup l ∧
            ∀ k, k ∈ l ↔ ∃ j : nat, gcam_regionnumber out !! j = Some r ∧
                                    gcam_metric out !! j = Some k)
    (allregnumber out) (allregaez out).
Proof.
  intros Hcsv Hpt Hagg Hout.
  destruct (read_gcam_file_run num_of_Z nmul pd_read_csv f gcam_landclasses
              start_yr end_yr scenario region_dict agg area_factor log gdf
              landclass metric_id region Hcsv Hpt)
    as (ws & years & gm & Hgm & Hrun).
  destruct Hrun as [(e & He & Hr)|(rn & regaez & infos & Hrn & Hins & Hr)];
    rewrite Hr in Hout; simplify_eq.
  cbn [allregnumber allregaez gcam_regionnumber gcam_metric].
  apply Z.eqb_neq in Hagg. rewrite Hagg in Hins |- *. subst regaez.
  rewrite sort_ints_pd_unique. unfold region_metric_lists, groupby_lists.
  rewrite <- list_fmap_compose. apply Forall2_fmap_r, Forall_Forall2_diag.
  apply Forall_forall. intros r _. cbn beta. cbn [snd fst compose].
  split; [apply np_unique_ints_sorted|]. split; [apply np_unique_ints_sorted|].
  intros k. rewrite elem_of_np_unique_ints, list_elem_of_fmap. split.
  - intros ([r' k'] & -> & [Hr' Hin]%list_elem_of_filter). cbn in Hr'. subst r'.
    apply list_elem_of_lookup in Hin as [j Hj]. exists j.
    apply lookup_zip_with_Some in Hj as (a & b & Heq & Ha & Hb).
    by simplify_eq.
  - intros (j & Hj1 & Hj2). exists (r, k). split; [done|].
    apply list_elem_of_filter. split; [done|].
    apply list_elem_of_lookup. exists j. apply lookup_zip_with_Some. eauto.
Qed.
End Projection2.

(** ** [read_base], continued *)

Section BaseLayer2.
Context {num : Type}.
Variable num_of_Z : Z → num.
Variable num_of_Q : Q → num.
Variables nadd nmul ndiv : num → num → num.
Variables ncos nradians : num → num.
Variable npow : num → Z → num.
Variable nsum : list num → num.
Variable num_eqb_Z : num → Z → bool.
Variable pd_read_csv : string → string → PyResult (@DataFrame num).

Local Abbreviation read_base :=
  (read_base num_of_Z num_of_Q nadd nmul ndiv ncos nradians npow nsum
     num_eqb_Z pd_read_csv).

Local Abbreviation zeros_like := (zeros_like num_of_Z).
Local Abbreviation values := (values num_of_Z).
Local Abbreviation getitem_values := (getitem_values num_of_Z).

(** Case analysis on every step of a call, innermost first. *)
Ltac base_cases H :=
  repeat match type of H with
         | context [match ?x with _ => _ end] =>
             lazymatch x with
             | context [match _ with _ => _ end] => fail
             | _ => destruct x eqn:?; cbn beta iota in H; cbn [fst snd] in H
             end
         end.

Ltac base_unfold H :=
  unfold read_base, local, bind, lift, ret, try_except, raise, log_error,
    log_warning, emit in H.

(** The assignment of line 350 keeps the shape and the dtype of an
    array. *)
Lemma is_CStr_remap b (c : @Cell num) :
  is_CStr (remap_cell num_of_Z num_eqb_Z b c) = is_CStr c.
Proof.
  destruct c as [z|s|x]; cbn; [by destruct (z =? 30)|done|].
  by destruct (num_eqb_Z x 30), b.
Qed.

Lemma is_CNum_remap_float (c : @Cell num) :
  is_CNum (remap_cell num_of_Z num_eqb_Z true c) = is_CNum c.
Proof.
  destruct c as [z|s|x]; cbn; [by destruct (z =? 30)|done|].
  by destruct (num_eqb_Z x 30).
Qed.

Lemma existsb_remap_CStr b (l : list (@Cell num)) :
  existsb is_CStr (map (remap_cell num_of_Z num_eqb_Z b) l) = existsb is_CStr l.
Proof.
  induction l as [|c l IH]; [done|]. cbn [map existsb].
  by rewrite is_CStr_remap, IH.
Qed.

Lemma existsb_remap_float (l : list (@Cell num)) :
  existsb is_CNum (map (remap_cell num_of_Z num_eqb_Z true) l)
  = existsb is_CNum l.
Proof.
  induction l as [|c l IH]; [done|]. cbn [map existsb].
  by rewrite is_CNum_remap_float, IH.
Qed.

Lemma existsb_remap_CNum (l : list (@Cell num)) :
  existsb is_CNum (map (remap_cell num_of_Z num_eqb_Z (existsb is_CNum l)) l)
  = existsb is_CNum l.
Proof.
  destruct (existsb is_CNum l) eqn:Hl.
  - by rewrite existsb_remap_float.
  - induction l as [|c l IH]; [done|]. cbn [map existsb] in *.
    apply orb_false_iff in Hl as [Hc Hl]. rewrite IH by done.
    destruct c as [z|s|x]; cbn in *; [by destruct (z =? 30)|done|done].
Qed.

Lemma float_table_remap (cols : list (list (@Cell num))) :
  float_table (map (map (remap_cell num_of_Z num_eqb_Z (float_table cols))) cols)
  = float_table cols.
Proof.
  unfold float_table at 1 3. rewrite <- !concat_map, existsb_remap_CStr.
  unfold float_table. destruct (existsb is_CStr (concat cols)).
  - by rewrite !andb_false_r.
  - rewrite !andb_true_r. apply existsb_remap_CNum.
Qed.

Lemma zeros_like_remap (a : Values) :
  zeros_like (remap_30_to_11 num_of_Z num_eqb_Z a) = zeros_like a.
Proof.
  unfold zeros_like.
  destruct a as [[l|l|l]|cols]; cbn [remap_30_to_11 full_like].
  - by rewrite length_fmap.
  - done.
  - by rewrite length_fmap.
  - rewrite float_table_remap. f_equal.
    rewrite <- list_fmap_compose. apply list_fmap_ext. intros i col _. cbn.
    by rewrite length_map.
Qed.

(** X15: when the base layer has a [water] label, what it selects is
    returned as it is (the column, when the label occurs once) and nothing
    is logged; when it has none, a call that returns logs exactly one
    warning and gives the zero array of the grid ids: a zero for every grid
    cell, the float zero for float grid ids and the integer zero for integer
    and for text grid ids. *)
Theorem read_base_water (c : Config) (spat_landclasses : list string)
    (log : list LogRecord) (df : DataFrame) out log' :
  pd_read_csv (first_mod_file c) "," = Return df →
  read_base c spat_landclasses log = (Return out, log') →
  (∀ x, getitem (rename_lower df) "water" = Return x →
        spat_water out = values x ∧ log' = log) ∧
  ("water" ∉ columns (rename_lower df) →
     log' = log ++ [mkLog WARNING m_no_water ANone] ∧
     spat_water out = zeros_like (spat_grid_id out) ∧
     (∀ l, spat_grid_id out = IntS l →
           spat_water out = IntS (replicate (length l) 0)) ∧
     (∀ l, spat_grid_id out = StrS l →
           spat_water out = IntS (replicate (length l) 0)) ∧
     (∀ l, spat_grid_id out = NumS l →
           spat_water out = NumS (replicate (length l) (num_of_Z 0)))).
Proof.
  intros Hcsv Hout. base_unfold Hout. rewrite Hcsv in Hout. split.
  - intros x Hx.
    assert (getitem_values (rename_lower df) "water" = Return (values x)) as Hv
      by (unfold getitem_values; by rewrite Hx).
    rewrite Hv in Hout.
    base_cases Hout; try discriminate Hout;
      injection Hout as <- <-; by split.
  - intros Hw.
    assert (getitem_values (rename_lower df) "water"
            = Raise (KeyError [PStr "water"])) as Hs.
    { unfold getitem_values.
      destruct (getitem (rename_lower df) "water") as [s|e] eqn:Hg.
      - by apply getitem_present in Hg.
      - by apply getitem_Raise in Hg as [_ ->]. }
    rewrite Hs in Hout. cbn [is_KeyError] in Hout.
    assert (log' = log ++ [mkLog WARNING m_no_water ANone] ∧
            spat_water out = zeros_like (spat_grid_id out)) as [-> Hz].
    { base_cases Hout; try discriminate Hout; injection Hout as <- <-;
        cbn [spat_water spat_grid_id]; by rewrite ?zeros_like_remap. }
    split; [done|]. split; [done|]. rewrite Hz.
    split_and!; intros l ->; reflexivity.
Qed.

(** X16: with an aggregation level other than 1 and 2 [read_base] never
    returns: [spat_region] and [spat_metric] stay unbound, and a call that
    gets through the extraction ends in an [UnboundLocalError]. *)
Theorem read_base_unsupported_level (c : Config)
    (spat_landclasses : list string) (log : list LogRecord) :
  agg_level c ∉ [1; 2] →
  ∃ e log', read_base c spat_landclasses log = (Raise e, log').
Proof.
  intros Hlevel. rewrite !not_elem_of_cons in Hlevel.
  destruct Hlevel as (H1 & H2 & _). apply Z.eqb_neq in H1, H2.
  destruct (read_base c spat_landclasses log) as [[out|e] log'] eqn:Hout;
    [|by eauto].
  base_unfold Hout. rewrite H1, H2, andb_false_r in Hout.
  base_cases Hout; discriminate Hout.
Qed.

(** X17: what a returning call gives as regions, for an integer
    [region_id] column, the only one under that label: at level 2 with the
    model named gcam (in any letter case) every 30 has become 11 and the
    rest is unchanged, so no 30 is left; at level 2 with another model the
    column is returned as it is; at level 1 every cell is 1. *)
Theorem read_base_regions (c : Config) (spat_landclasses : list string)
    (log : list LogRecord) (df : DataFrame) (ids : list Z) out log' :
  pd_read_csv (first_mod_file c) "," = Return df →
  getitem (rename_lower df) "region_id" = Return (IntS ids) →
  read_base c spat_landclasses log = (Return out, log') →
  (agg_level c = 2 → lower (model c) = "gcam" →
     spat_region out = IntS ((λ r, if r =? 30 then 11 else r) <$> ids) ∧
     ∀ l, spat_region out = IntS l → 30 ∉ l) ∧
  (agg_level c = 2 → lower (model c) ≠ "gcam" → spat_region out = IntS ids) ∧
  (agg_level c = 1 → spat_region out = IntS (replicate (length ids) 1)).
Proof.
  intros Hcsv Hid Hout. base_unfold Hout.
  assert (getitem_values (rename_lower df) "region_id" = Return (Vector (IntS ids)))
    as Hv by (unfold getitem_values; by rewrite Hid).
  rewrite Hcsv, Hv in Hout.
  split_and!.
  - intros Hagg Hmodel. rewrite Hagg, bool_decide_eq_true_2 in Hout by done.
    cbn [Z.eqb Pos.eqb andb] in Hout.
    base_cases Hout; try discriminate Hout; injection Hout as <- <-;
      cbn [spat_region remap_30_to_11]; (split; [done|]);
      intros l [= <-] (r & Hr & _)%list_elem_of_fmap;
      destruct (Z.eqb_spec r 30); lia.
  - intros Hagg Hmodel. rewrite Hagg, bool_decide_eq_false_2 in Hout by done.
    cbn [Z.eqb Pos.eqb andb] in Hout.
    base_cases Hout; try discriminate Hout; by injection Hout as <- <-.
  - intros Hagg. rewrite Hagg, andb_false_r in Hout.
    cbn [Z.eqb Pos.eqb] in Hout.
    base_cases Hout; try discriminate Hout; by injection Hout as <- <-.
Qed.

Lemma getitem_absent (df : @DataFrame num) name :
  name ∉ columns df → getitem_values df name = Raise (KeyError [PStr name]).
Proof.
  intros Hn. unfold getitem_values.
  destruct (getitem df name) as [s|e] eqn:Hg.
  - by apply getitem_present in Hg.
  - by apply getitem_Raise in Hg as [_ ->].
Qed.

(** X18: what a returning call needs of the base layer (headers compared
    in lower case): every requested land-cover column, the grid-id column,
    [region_id], the metric's id column, and the coordinates under one of
    the two naming conventions. *)
Theorem read_base_needs_columns (c : Config) (spat_landclasses : list string)
    (log : list LogRecord) (df : DataFrame) out log' :
  pd_read_csv (first_mod_file c) "," = Return df →
  read_base c spat_landclasses log = (Return out, log') →
  let cols := columns (rename_lower df) in
  spat_landclasses ⊆ cols ∧
  pkey c ∈ cols ∧
  "region_id" ∈ cols ∧
  lower (metric c) +:+ "_id" ∈ cols ∧
  (["latcoord"; "loncoord"] ⊆ cols ∨ ["latitude"; "longitude"] ⊆ cols).
Proof.
  intros Hcsv Hout cols. subst cols. split_and!.
  - destruct (decide (spat_landclasses ⊆ columns (rename_lower df)))
      as [|Hmiss]; [done|].
    destruct (read_base_swallows_missing_fields num_of_Z num_of_Q nadd nmul
                ndiv ncos nradians npow nsum num_eqb_Z pd_read_csv c
                spat_landclasses log df Hcsv Hmiss) as (e & log2 & Hr).
    congruence.
  - destruct (decide (pkey c ∈ columns (rename_lower df))) as [|Hn]; [done|].
    base_unfold Hout. rewrite Hcsv, (getitem_absent _ _ Hn) in Hout.
    base_cases Hout; discriminate Hout.
  - destruct (decide ("region_id" ∈ columns (rename_lower df))) as [|Hn];
      [done|].
    base_unfold Hout. rewrite Hcsv, (getitem_absent _ _ Hn) in Hout.
    base_cases Hout; discriminate Hout.
  - destruct (decide (lower (metric c) +:+ "_id" ∈ columns (rename_lower df)))
      as [|Hn]; [done|].
    base_unfold Hout. rewrite Hcsv, (getitem_absent _ _ Hn) in Hout.
    base_cases Hout; discriminate Hout.
  - destruct (decide (["latcoord"; "loncoord"] ⊆ columns (rename_lower df)))
      as [|Hn1]; [by left|].
    destruct (decide (["latitude"; "longitude"] ⊆ columns (rename_lower df)))
      as [|Hn2]; [by right|].
    base_unfold Hout.
    rewrite Hcsv, (getitems_missing _ _ Hn1), (getitems_missing _ _ Hn2)
      in Hout.
    cbn [mbind PyResult_bind res_bind is_KeyError] in Hout.
    base_cases Hout; discriminate Hout.
Qed.
Local Abbreviation num_matrix := (num_matrix num_of_Z).
Local Abbreviation nums_of := (nums_of num_of_Z).

End BaseLayer2.

(** ** The sample inputs, continued *)

Lemma demo_run1 :
  read_gcam_file (num:=Z) id Z.mul demo_csv "gcam.csv" ["forest"; "crops"]
    2000 2010 "Reference" demo_region_dict 1 1000 []
  = (Return demo_out1,
     [mkLog INFO m_regions (ACount 2); mkLog INFO m_metrics (ACount 2)]).
Proof. vm_compute. reflexivity. Qed.

(** X2, on the sample region file read with the names as keys. *)
Lemma to_dict_last_line_wins_witness :
  ∃ d entries,
    to_dict demo_region_lines true "," true = Return d ∧
    d !! "China" = Some "12" ∧
    Forall2 (line_entry "," true) (data_lines demo_region_lines true) entries.
Proof.
  destruct (to_dict demo_region_lines true "," true) as [d|e] eqn:Hd;
    [|vm_compute in Hd; discriminate].
  destruct (to_dict_last_line_wins demo_region_lines true "," true d Hd)
    as (entries & Hf & _).
  exists d, entries. split; [done|]. split; [|done].
  vm_compute in Hd. injection Hd as <-. reflexivity.
Defined.

(** X3, on a file whose second data line is blank. *)
Lemma to_dict_blank_line_witness :
  to_dict ["1,USA" +:+ nl; nl] false "," false = Raise IndexError.
Proof.
  apply (to_dict_blank_line ["1,USA" +:+ nl; nl] false "," false).
  - discriminate.
  - exists nl. split; [|reflexivity]. apply elem_of_cons. right. by left.
Defined.

(** X4, on the sample file of region numbers. *)
Lemma to_list_per_line_witness :
  Forall2 (line_number ",") (data_lines demo_number_lines true) [1; 11] ∧
  length [1; 11]
  = (length demo_number_lines - (if true then 1 else 0))%nat.
Proof.
  apply (to_list_per_line demo_number_lines true "," [1; 11]).
  vm_compute. reflexivity.
Defined.

(** X5, on the sample file of region numbers. *)
Lemma to_list_to_dict_witness :
  ∃ d, to_dict (open_r demo_number_bytes) true "," false = Return d ∧
       ∀ k v, d !! k = Some v → ∃ n, py_int v = Return n ∧ n ∈ [1; 11].
Proof.
  apply (to_list_to_dict demo_number_bytes true "," [1; 11]).
  - discriminate.
  - vm_compute. repeat (split; [by (try discriminate); eauto|]). done.
  - vm_compute. reflexivity.
Defined.

(** X6, on the sample allocation file: a target column that is not there,
    and one that holds numbers. *)
Lemma read_alloc_bad_target_witness :
  read_alloc (num:=Z) id demo_st_size demo_csv "alloc.csv" "Landclass" 3 ","
  = Raise (KeyError [PStr "landclass"]) ∧
  read_alloc (num:=Z) id demo_st_size demo_csv "alloc.csv" "Forest" 3 ","
  = Raise (AttributeError "str").
Proof.
  split.
  - apply (read_alloc_bad_target id demo_st_size demo_csv "alloc.csv"
             "Landclass" "," 3 demo_alloc); [vm_compute; discriminate|done|].
    compute_done.
  - assert (demo_st_size "alloc.csv" ≠ 0) as Hsize
      by (vm_compute; discriminate).
    destruct (read_alloc_bad_target id demo_st_size demo_csv "alloc.csv"
                "Forest" "," 3 demo_alloc Hsize eq_refl) as (_ & Hnumbers & _).
    by apply (Hnumbers (IntS [1; 0])).
Defined.

(** X7, on the sample allocation file whose headers [Forest] and [forest]
    give the same final class: every row has four cells. *)
Lemma read_alloc_shape_witness :
  ∃ rows,
    read_alloc (num:=Z) id demo_st_size demo_csv2 "twice.csv" "Category" 3 ","
    = Return (Tuple3 ["forest"; "forest"] ["forest"; "crops"] (Array2 rows)) ∧
    length rows = 2%nat ∧ Forall (λ r, length r = 4%nat) rows.
Proof.
  destruct (read_alloc_shape id demo_st_size demo_csv2 "twice.csv" "Category"
              "," demo_alloc_twice ["Forest"; "Crops"])
    as (rows & H3 & _ & _ & Hrows & Hrow & _).
  - vm_compute. discriminate.
  - reflexivity.
  - repeat constructor.
  - reflexivity.
  - exists rows. split; [exact H3|]. split; [exact Hrows|exact Hrow].
Defined.

(** X8, on two spellings of the same sets. *)
Lemma check_constraints_sets_witness :
  _check_constraints ["Forest"; "crops"; "FOREST"] ["Urban"; "forest"] []
  = _check_constraints ["CROPS"; "forest"] ["forest"; "urban"; "urban"] [].
Proof.
  assert (∀ l1 l2 : list string, l1 ⊆ l2 → l2 ⊆ l1 → ∀ x, x ∈ l1 ↔ x ∈ l2)
    as Hsets by (intros l1 l2 H1 H2 x; split; [apply H1|apply H2]).
  apply check_constraints_sets; apply Hsets; compute_done.
Defined.

(** X10, on the sample projection table. *)
Lemma get_steps_narrow_witness :
  _get_steps (num:=Z) demo_gdf 2005 2010
  = filter (λ y, 2005 ≤ y ≤ 2010) <$> _get_steps (num:=Z) demo_gdf 1990 2010.
Proof. apply get_steps_narrow; lia. Defined.

(** X12, on the sample table whose year label is ['02005']. *)
Lemma noncanonical_year_label_witness :
  ∃ missing ws,
    PStr (py_str 2005) ∈ missing ∧
    read_gcam_file (num:=Z) id Z.mul demo_csv2 "padded.csv" ["forest"; "crops"]
      2000 2010 "Reference" demo_region_dict 1 1000 []
    = (Raise (KeyError missing), [] ++ ws).
Proof.
  apply (noncanonical_year_label id Z.mul demo_csv2 "padded.csv"
           ["forest"; "crops"] 2000 2010 "Reference" demo_region_dict 1 1000
           [] demo_padded ["Forest"; "Crops"] "02005" 2005).
  - reflexivity.
  - reflexivity.
  - compute_done.
  - reflexivity.
  - lia.
  - compute_done.
Defined.

(** X13, on the sample projection table. *)
Lemma allmetric_is_dense_witness :
  allmetric demo_out
  = Z.of_nat <$> seq 1 (size (list_to_set [231; 17; 231] : gset Z)).
Proof.
  eapply (allmetric_is_dense id Z.mul demo_csv "gcam.csv" ["forest"; "crops"]
            2000 2010 "Reference" demo_region_dict 2 1000 [] demo_gdf).
  - reflexivity.
  - exact demo_projection_table.
  - exact demo_run.
Defined.

(** X14, on the sample projection table at aggregation level 1. *)
Lemma region_lists_aligned_witness :
  Forall2
    (λ r l, StronglySorted Z.le l ∧ NoDup l ∧
            ∀ k, k ∈ l ↔ ∃ j : nat, gcam_regionnumber demo_out1 !! j = Some r ∧
                                    gcam_metric demo_out1 !! j = Some k)
    (allregnumber demo_out1) (allregaez demo_out1).
Proof.
  eapply (region_lists_aligned id Z.mul demo_csv "gcam.csv" ["forest"; "crops"]
            2000 2010 "Reference" demo_region_dict 1 1000 [] demo_gdf).
  - reflexivity.
  - exact demo_projection_table.
  - lia.
  - exact demo_run1.
Defined.

(** X15, on the sample base layer without water whose grid ids are text:
    the water array holds the integer zero for each of the two cells. *)
Lemma read_base_water_witness :
  ∃ out log',
    demo_read_base (demo_config "named.csv" 2)
      ["forest"; "crops"] [] = (Return out, log') ∧
    spat_grid_id out = StrS ["a1"; "a2"] ∧
    spat_water out = IntS [0; 0] ∧
    log' = [] ++ [mkLog WARNING m_no_water ANone].
Proof.
  destruct (demo_read_base (demo_config "named.csv" 2)
              ["forest"; "crops"] []) as [[out|e] log'] eqn:Hrun;
    [|vm_compute in Hrun; discriminate].
  exists out, log'. split; [done|].
  destruct (read_base_water id demo_of_Q Z.add Z.mul Z.div id id Z.pow demo_sum
              Z.eqb demo_csv2 (demo_config "named.csv" 2) _ [] demo_base_named
              out log' eq_refl Hrun) as [_ Hdry].
  destruct Hdry as (Hlog & _ & _ & Htext & _); [compute_done|].
  assert (spat_grid_id out = StrS ["a1"; "a2"]) as Hid.
  { vm_compute in Hrun. by injection Hrun as <- <-. }
  split; [done|]. split; [|done]. by rewrite (Htext _ Hid).
Defined.

(** X16, on the sample base layer at aggregation level 3. *)
Lemma read_base_unsupported_level_witness :
  ∃ e log',
    demo_read_base (demo_config "base.csv" 3)
      ["forest"; "crops"] [] = (Raise e, log').
Proof.
  apply (read_base_unsupported_level id demo_of_Q Z.add Z.mul Z.div id id Z.pow
           demo_sum Z.eqb demo_csv2). compute_done.
Defined.

(** X17, on the sample base layer, whose regions are 11 and 30. *)
Lemma read_base_regions_witness :
  ∃ out log',
    demo_read_base (demo_config "base.csv" 2)
      ["forest"; "crops"] [] = (Return out, log') ∧
    spat_region out = IntS [11; 11].
Proof.
  destruct (demo_read_base (demo_config "base.csv" 2)
              ["forest"; "crops"] []) as [[out|e] log'] eqn:Hrun;
    [|vm_compute in Hrun; discriminate].
  exists out, log'. split; [done|].
  destruct (read_base_regions id demo_of_Q Z.add Z.mul Z.div id id Z.pow
              demo_sum Z.eqb demo_csv2 (demo_config "base.csv" 2) _ []
              demo_base [11; 30] out log' eq_refl eq_refl Hrun) as [Hgcam _].
  by destruct (Hgcam eq_refl eq_refl) as [-> _].
Defined.

(** X18, on the sample base layer. *)
Lemma read_base_needs_columns_witness :
  ∃ out log',
    demo_read_base (demo_config "base.csv" 2) ["forest"; "crops"] []
    = (Return out, log') ∧
    ["forest"; "crops"] ⊆ columns (rename_lower (demo_base (num:=Z))).
Proof.
  destruct (demo_read_base (demo_config "base.csv" 2) ["forest"; "crops"] [])
    as [[out|e] log'] eqn:Hrun; [|vm_compute in Hrun; discriminate].
  exists out, log'. split; [done|].
  apply (read_base_needs_columns id demo_of_Q Z.add Z.mul Z.div id id Z.pow
           demo_sum Z.eqb demo_csv2 (demo_config "base.csv" 2) _ [] demo_base
           out log' eq_refl Hrun).
Defined.

(** The run of the normalizer on the base layer of floats: the cell areas
    are 27694.467899999996 and the land cover returned is
    12308.652399999997 and 3077.1630999999993. *)
Lemma float_run :
  ∃ out,
    float_read_base float_config ["forest"] [] = (Return out, []) ∧
    spat_water out = NumS [0.5; 0]%float ∧
    cellarea out = [0x1.b0b9df212d772p+14; 0x1.b0b9df212d772p+14]%float ∧
    spat_ludata out
    = [[0x1.80a5381d7dbf3p+13]; [0x1.80a5381d7dbf3p+11]]%float.
Proof. eexists. vm_compute. done. Qed.

Lemma float_raw :
  getitems (rename_lower demo_base_float) ["forest"]
    ≫= num_matrix float_of_Z (nrows (rename_lower demo_base_float))
  = Return [[1]; [0.25]]%float.
Proof. vm_compute. reflexivity. Qed.


